(** * react-mini-card-project: the Gallery (src/src/App.jsx) and the Card
    component (components/Card/Card.jsx) as a shallow embedding.

    - JS strings are [string]s of Latin-1 code units (one [ascii] each).
    - [localStorage] is a [gmap string string].
    - A JS [Set] of card ids is a [gset string].
    - The values [JSON.parse] can produce are [json]; [JSON.parse] itself
      is a variable of the development, [None] meaning it throws.
    - A Card's callbacks are observed as a list of [effect]s, emitted in
      the order the source performs them. *)

From Stdlib Require Import QArith.
From Stdlib Require Import DecimalString.
From Stdlib Require Import Ascii String.
From stdpp Require Import base gmap strings list fin_sets.

#[local] Set Warnings "-register-all".

Open Scope string_scope.

(** ** JavaScript values and helpers *)

Inductive json : Type :=
| JNull
| JBool (b : bool)
| JNum (q : Q)
| JStr (s : string)
| JArr (l : list json)
| JObj (l : list (string * json)).

(** JS truthiness of a parsed value ([if (v)], [v ? a : b], [!v]). *)
Definition truthy (v : json) : bool :=
  match v with
  | JNull => false
  | JBool b => b
  | JNum q => negb (Qeq_bool q 0)
  | JStr s => negb (String.eqb s EmptyString)
  | JArr _ | JObj _ => true
  end.

(** [JSON.stringify] of a boolean. *)
Definition stringify_bool (b : bool) : string := if b then "true" else "false".

(** JS string truthiness of an optional string prop ([if (cardId)]):
    [null] and the empty string are falsy. *)
Definition truthy_id (o : option string) : bool :=
  match o with
  | Some s => negb (String.eqb s EmptyString)
  | None => false
  end.

(** Whitespace removed by [String.prototype.trim] among the code units
    U+0000..U+00FF: TAB, LF, VT, FF, CR, SPACE, NBSP. *)
Definition is_js_space (c : ascii) : bool :=
  match nat_of_ascii c with
  | 9 | 10 | 11 | 12 | 13 | 32 | 160 => true
  | _ => false
  end.

Fixpoint trim_start (s : string) : string :=
  match s with
  | EmptyString => EmptyString
  | String c r => if is_js_space c then trim_start r else s
  end.

Definition trim_end (s : string) : string :=
  string_of_list_ascii (rev (list_ascii_of_string (trim_start
    (string_of_list_ascii (rev (list_ascii_of_string s)))))).

Definition trim (s : string) : string := trim_end (trim_start s).

(** [String(n)] for the non-negative integer returned by [Date.now()]. *)
Definition string_of_N (n : N) : string :=
  NilZero.string_of_uint (N.to_uint n).

(** The double-quote character, as a one-character string. *)
Definition dquote : string := String (ascii_of_nat 34) EmptyString.

(** ** The store: [localStorage] *)

Abbreviation storage := (gmap string string).

(** [`card-${cardId}-liked`] *)
Definition storage_key (cardId : string) : string :=
  "card-" ++ cardId ++ "-liked".

(** ** The Card component *)

Record card_props := {
  p_title : string;
  p_initialLiked : bool;
  p_cardId : option string;     (** [null] when absent (defaultProps) *)
  p_onLikeChange : bool;        (** whether the callback is supplied *)
  p_onDelete : bool             (** whether the callback is supplied *)
}.

(** Observable actions of a Card, in the order performed. *)
Inductive effect : Type :=
| SetItem (k v : string)                     (** localStorage.setItem *)
| RemoveItem (k : string)                    (** localStorage.removeItem *)
| CallLikeChange (id : option string) (b : bool)  (** onLikeChange(cardId, b) *)
| CallDelete (id : option string)            (** onDelete(cardId) *)
| Log (msg : string).                        (** console.log *)

Definition is_store_effect (e : effect) : bool :=
  match e with SetItem _ _ | RemoveItem _ => true | _ => false end.

(** [localStorage] after the store effects of a list of effects. *)
Fixpoint apply_store (es : list effect) (st : storage) : storage :=
  match es with
  | [] => st
  | SetItem k v :: es' => apply_store es' (<[k := v]> st)
  | RemoveItem k :: es' => apply_store es' (delete k st)
  | _ :: es' => apply_store es' st
  end.

Section Card.

(** [JSON.parse]; [None] when it throws a SyntaxError. *)
Variable JSON_parse : string -> option json.

(** The [useState] initializer of [isLiked]; [None] when [JSON.parse]
    throws during the render. *)
Definition card_init (p : card_props) (st : storage) : option json :=
  match p.(p_cardId) with
  | Some cardId =>
      if truthy_id (Some cardId) then
        match st !! storage_key cardId with
        | Some savedState => JSON_parse savedState
        | None => Some (JBool p.(p_initialLiked))
        end
      else Some (JBool p.(p_initialLiked))
  | None => Some (JBool p.(p_initialLiked))
  end.

End Card.

(** [toggleLike]: the updater run on [prevLiked]; returns the new state and
    the effects it performs. *)
Definition toggleLike (p : card_props) (prevLiked : json) : json * list effect :=
  let newLikedState := negb (truthy prevLiked) in
  (JBool newLikedState,
   ((match p.(p_cardId) with
    | Some cardId =>
        if truthy_id (Some cardId)
        then [SetItem (storage_key cardId) (stringify_bool newLikedState)]
        else []
    | None => []
    end) ++
   (if p.(p_onLikeChange) then [CallLikeChange p.(p_cardId) newLikedState] else []) ++
   [Log ("Card " ++ dquote ++ p.(p_title) ++ dquote ++ " like state changed to: "
          ++ stringify_bool newLikedState)])%list).

(** [handleDelete]: [confirmed] is the answer of [window.confirm] to
    [delete_prompt p]. *)
Definition delete_prompt (p : card_props) : string :=
  "Are you sure you want to delete the card " ++ dquote ++ p.(p_title) ++ dquote ++ "?".

Definition handleDelete (p : card_props) (confirmed : bool) : list effect :=
  if confirmed then
    ((match p.(p_cardId) with
      | Some cardId =>
          if truthy_id (Some cardId) then [RemoveItem (storage_key cardId)] else []
      | None => []
      end) ++
     (if p.(p_onDelete) then [CallDelete p.(p_cardId)] else []) ++
     [Log ("Card " ++ dquote ++ p.(p_title) ++ dquote ++ " deleted")])%list
  else [].

(** ** The Gallery: [App] *)

Record card := {
  id : string;
  title : string;
  initialLiked : bool
}.

Definition initialCards : list card :=
  [ {| id := "react-dev"; title := "React Development"; initialLiked := true |};
    {| id := "js-fundamentals"; title := "JavaScript Fundamentals"; initialLiked := false |};
    {| id := "css-animations"; title := "CSS Animations"; initialLiked := true |};
    {| id := "web-design"; title := "Web Design Principles"; initialLiked := false |} ].

(** The [useState] hooks of [App]. *)
Record gallery := {
  cards : list card;
  likedCards : gset string;
  newCardTitle : string;
  isAddingCard : bool
}.

Definition gallery_init : gallery :=
  {| cards := initialCards; likedCards := ∅; newCardTitle := EmptyString;
     isAddingCard := false |}.

(** [savedState === 'true' || (savedState === null && card.initialLiked)] *)
Definition liked_from_storage (st : storage) (c : card) : bool :=
  let savedState := st !! storage_key c.(id) in
  (match savedState with Some s => String.eqb s "true" | None => false end) ||
  ((match savedState with None => true | Some _ => false end) && c.(initialLiked)).

(** The [forEach] of the resync effect, adding to [likedSet]. *)
Fixpoint collect_liked (st : storage) (cs : list card) (likedSet : gset string)
  : gset string :=
  match cs with
  | [] => likedSet
  | c :: cs' =>
      collect_liked st cs'
        (if liked_from_storage st c then {[c.(id)]} ∪ likedSet else likedSet)
  end.

(** The effect [React.useEffect(..., [cards])]. *)
Definition resync_liked (st : storage) (g : gallery) : gallery :=
  {| cards := g.(cards); likedCards := collect_liked st g.(cards) ∅;
     newCardTitle := g.(newCardTitle); isAddingCard := g.(isAddingCard) |}.

Definition handleLikeChange (cardId : string) (isLiked : bool) (g : gallery) : gallery :=
  {| cards := g.(cards);
     likedCards := if isLiked then {[cardId]} ∪ g.(likedCards)
                   else g.(likedCards) ∖ {[cardId]};
     newCardTitle := g.(newCardTitle); isAddingCard := g.(isAddingCard) |}.

Definition handleCardDelete (cardId : string) (g : gallery) : gallery :=
  {| cards := List.filter (fun c => negb (String.eqb c.(id) cardId)) g.(cards);
     likedCards := g.(likedCards) ∖ {[cardId]};
     newCardTitle := g.(newCardTitle); isAddingCard := g.(isAddingCard) |}.

(** [{ id: `card-${Date.now()}`, title: newCardTitle.trim(), initialLiked: false }] *)
Definition new_card (now : N) (g : gallery) : card :=
  {| id := "card-" ++ string_of_N now; title := trim g.(newCardTitle);
     initialLiked := false |}.

(** [handleAddCard], with [now] the value of [Date.now()]. *)
Definition handleAddCard (now : N) (g : gallery) : gallery :=
  if negb (String.eqb (trim g.(newCardTitle)) EmptyString) then
    {| cards := g.(cards) ++ [new_card now g];
       likedCards := g.(likedCards);
       newCardTitle := EmptyString; isAddingCard := false |}
  else g.

(** [likeCount] and [totalCards]. *)
Definition likeCount (g : gallery) : nat := size g.(likedCards).
Definition totalCards (g : gallery) : nat := length g.(cards).

(** The props [App] renders each [Card] with. *)
Definition app_card_props (c : card) : card_props :=
  {| p_title := c.(title); p_initialLiked := c.(initialLiked);
     p_cardId := Some c.(id); p_onLikeChange := true; p_onDelete := true |}.

(** The Card callbacks and store writes, run in order against [App]'s
    state; the boolean records whether [setCards] was called. *)
Fixpoint run_effects (es : list effect) (g : gallery) (st : storage) (changed : bool)
  : gallery * storage * bool :=
  match es with
  | [] => (g, st, changed)
  | SetItem k v :: es' => run_effects es' g (<[k := v]> st) changed
  | RemoveItem k :: es' => run_effects es' g (delete k st) changed
  | CallLikeChange (Some cardId) b :: es' =>
      run_effects es' (handleLikeChange cardId b g) st changed
  | CallDelete (Some cardId) :: es' =>
      run_effects es' (handleCardDelete cardId g) st true
  (* [App] passes [cardId={card.id}], a string: no Card of it reports null *)
  | CallLikeChange None _ :: es' | CallDelete None :: es' | Log _ :: es' =>
      run_effects es' g st changed
  end.

(** ** The running page: [App]'s state, the mounted Cards and the store *)

Record world := {
  gal : gallery;
  mounted : list (card * json);   (** each rendered [Card] and its [isLiked] *)
  store : storage
}.

(** User actions. [OpToggle i] and [OpDelete i confirmed] act on the
    [i]-th rendered Card; [OpSubmit now] submits the add form while
    [Date.now()] is [now]. *)
Inductive op : Type :=
| OpToggle (i : nat)
| OpDelete (i : nat) (confirmed : bool)
| OpOpenForm
| OpType (s : string)
| OpCancel
| OpSubmit (now : N).

Section App.

Variable JSON_parse : string -> option json.

(** Mounting a [Card] for [c]: its [useState] initializer. *)
Definition mount_card (st : storage) (c : card) : option (card * json) :=
  match card_init JSON_parse (app_card_props c) st with
  | Some v => Some (c, v)
  | None => None
  end.

Fixpoint mount_all (st : storage) (cs : list card) : option (list (card * json)) :=
  match cs with
  | [] => Some []
  | c :: cs' =>
      match mount_card st c, mount_all st cs' with
      | Some m, Some ms => Some (m :: ms)
      | _, _ => None
      end
  end.

(** The initial load: the first render mounts every Card, then the effect
    on [cards] runs. [None]: a Card's render threw. *)
Definition app_load (st : storage) : option world :=
  match mount_all st initialCards with
  | Some ms => Some {| gal := resync_liked st gallery_init; mounted := ms; store := st |}
  | None => None
  end.

(** One user action, followed by the re-render and, when [setCards] was
    called, the effect on [cards]. [None]: a render threw. The mounted
    Cards are taken to be exactly the listed cards; this matches React's
    reconciliation when the listed ids (the Cards' [key]s) are distinct.
    With a repeated key React can leave an orphaned Card on the page,
    which this model does not represent. *)
Definition step (w : world) (o : op) : option world :=
  let g := w.(gal) in
  match o with
  | OpToggle i =>
      match w.(mounted) !! i with
      | Some (c, isLiked) =>
          let '(newLiked, es) := toggleLike (app_card_props c) isLiked in
          let '(g', st', changed) := run_effects es g w.(store) false in
          Some {| gal := if changed then resync_liked st' g' else g';
                  mounted := <[i := (c, newLiked)]> w.(mounted);
                  store := st' |}
      | None => Some w
      end
  | OpDelete i confirmed =>
      match w.(mounted) !! i with
      | Some (c, _) =>
          let es := handleDelete (app_card_props c) confirmed in
          let '(g', st', changed) := run_effects es g w.(store) false in
          if changed then
            Some {| gal := resync_liked st' g';
                    mounted := List.filter (fun m => negb (String.eqb m.1.(id) c.(id)))
                                 w.(mounted);
                    store := st' |}
          else Some {| gal := g'; mounted := w.(mounted); store := st' |}
      | None => Some w
      end
  | OpOpenForm =>
      Some {| gal := {| cards := g.(cards); likedCards := g.(likedCards);
                        newCardTitle := g.(newCardTitle); isAddingCard := true |};
              mounted := w.(mounted); store := w.(store) |}
  | OpType s =>
      if g.(isAddingCard) then
        Some {| gal := {| cards := g.(cards); likedCards := g.(likedCards);
                          newCardTitle := s; isAddingCard := true |};
                mounted := w.(mounted); store := w.(store) |}
      else Some w
  | OpCancel =>
      Some {| gal := {| cards := g.(cards); likedCards := g.(likedCards);
                        newCardTitle := EmptyString; isAddingCard := false |};
              mounted := w.(mounted); store := w.(store) |}
  | OpSubmit now =>
      if g.(isAddingCard) then
        let g' := handleAddCard now g in
        if negb (String.eqb (trim g.(newCardTitle)) EmptyString) then
          match mount_card w.(store) (new_card now g) with
          | Some m =>
              Some {| gal := resync_liked w.(store) g';
                      mounted := w.(mounted) ++ [m]; store := w.(store) |}
          | None => None
          end
        else Some {| gal := g'; mounted := w.(mounted); store := w.(store) |}
      else Some w
  end.

Fixpoint run (w : world) (os : list op) : option world :=
  match os with
  | [] => Some w
  | o :: os' => match step w o with Some w' => run w' os' | None => None end
  end.

End App.

(** Number of rendered Cards showing "Liked". *)
Definition rendered_liked (ms : list (card * json)) : nat :=
  length (List.filter (fun m => truthy m.2) ms).

(** A sample [JSON.parse] to run the model on examples: it knows the JSON
    literals [true], [false] and [null] and throws on anything else (the
    browser's also reads numbers, strings, arrays and objects, none of
    which occurs in the examples). *)
Definition json_parse_lit (s : string) : option json :=
  if String.eqb s "true" then Some (JBool true)
  else if String.eqb s "false" then Some (JBool false)
  else if String.eqb s "null" then Some JNull
  else None.

(** ** Rendering and the error boundary *)

(** The regions [App] renders inside its [ErrorBoundary]. *)
Inductive region : Type :=
| RHeader (total liked notLiked : Z) (isAdding : bool) (input : string)
    (** title, statistics and the add-card section *)
| RCards (views : list (string * bool))   (** each Card: title, shows "Liked" *)
| REmptyState                             (** "No cards yet" *)
| RFooter
| RErrorPanel.                            (** the fallback with "Try Again" *)

Definition gallery_regions (g : gallery) (ms : list (card * json)) : list region :=
  [RHeader (Z.of_nat (totalCards g)) (Z.of_nat (likeCount g))
     (Z.of_nat (totalCards g) - Z.of_nat (likeCount g))
     g.(isAddingCard) g.(newCardTitle);
   match g.(cards) with
   | [] => REmptyState
   | _ => RCards (map (fun m => (m.1.(title), truthy m.2)) ms)
   end;
   RFooter].

(** [ErrorBoundary.render] after [getDerivedStateFromError]: [children] is
    [None] when rendering them throws. Returns the new [hasError] and the
    output. *)
Definition ErrorBoundary_render (hasError : bool) (children : option (list region))
  : bool * list region :=
  if hasError then (true, [RErrorPanel])
  else match children with
       | Some rs => (false, rs)
       | None => (true, [RErrorPanel])
       end.

(** The "Try Again" button: [this.setState({ hasError: false, error: null })]. *)
Definition tryAgain (hasError : bool) : bool := false.

(** [App]'s output: the boundary wraps header, card list and footer; [ms] is
    [None] when a Card's render throws. *)
Definition App_render (hasError : bool) (g : gallery) (ms : option (list (card * json)))
  : bool * list region :=
  ErrorBoundary_render hasError
    (match ms with Some ms' => Some (gallery_regions g ms') | None => None end).

(** ** Sample inputs *)

(** Two successive [toggleLike]s from [isLiked = v0]: the final in-memory
    state and the store after both updaters' writes. *)
Definition double_toggle (p : card_props) (v0 : json) (st : storage) : json * storage :=
  let r1 := toggleLike p v0 in
  let r2 := toggleLike p r1.1 in
  (r2.1, apply_store (r1.2 ++ r2.2)%list st).

(** A store where the seed card [react-dev] was unliked earlier. *)
Definition store_react_unliked : storage := {[ storage_key "react-dev" := "false" ]}.

(** A store whose entry for [react-dev] [JSON.parse] cannot read. *)
Definition store_unparsable : storage := {[ storage_key "react-dev" := "oops" ]}.

(** The page after loading with an empty store. *)
Definition fresh_world : world :=
  {| gal := resync_liked ∅ gallery_init;
     mounted := map (fun c => (c, JBool c.(initialLiked))) initialCards;
     store := ∅ |}.

(** The same page with the add form open and [input] typed in. *)
Definition typing_world (input : string) : world :=
  {| gal := {| cards := initialCards; likedCards := (resync_liked ∅ gallery_init).(likedCards);
               newCardTitle := input; isAddingCard := true |};
     mounted := fresh_world.(mounted); store := ∅ |}.

(** Adding "A" and then "B" while [Date.now()] reads 5 both times. *)
Definition same_time_adds : list op :=
  [OpOpenForm; OpType "A"; OpSubmit 5; OpOpenForm; OpType "B"; OpSubmit 5].

(** The page after loading [st] and running [os] (the fresh page when a
    render throws). *)
Definition page_after (st : storage) (os : list op) : world :=
  match app_load json_parse_lit st with
  | Some w0 => match run json_parse_lit w0 os with Some w => w | None => w0 end
  | None => fresh_world
  end.

(** Like a card, delete the first seed card, then add "Algorithms" at time 7. *)
Definition edit_session : list op :=
  [OpToggle 1; OpDelete 0 true; OpOpenForm; OpType "Algorithms"; OpSubmit 7].

(** A store holding the JSON value [null], not a flag, for [react-dev]. *)
Definition store_react_null : storage := {[ storage_key "react-dev" := "null" ]}.

(** A store whose flag under the key of [card-7] [JSON.parse] cannot read. *)
Definition store_leftover_bad : storage := {[ storage_key "card-7" := "oops" ]}.

(** ** Reachable pages *)

(** The values the Card writes: ["true"] and ["false"]. *)
Definition flag_text (v : string) : Prop := v = "true" \/ v = "false".

Definition store_wf (st : storage) : Prop := map_Forall (fun _ v => flag_text v) st.

(** What holds of every page reached from a load: the mounted Cards are the
    listed cards, ids are distinct and non-empty, the store holds flags,
    each Card shows what the Gallery reads from the store, and the liked-set
    is what the resync effect computes. *)
Record inv (w : world) : Prop := {
  inv_mounted : map fst w.(mounted) = w.(gal).(cards);
  inv_nodup : NoDup (map id w.(gal).(cards));
  inv_ids : Forall (fun c => c.(id) <> EmptyString) w.(gal).(cards);
  inv_store : store_wf w.(store);
  inv_states : Forall (fun m : card * json =>
                 m.2 = JBool (liked_from_storage w.(store) m.1)) w.(mounted);
  inv_liked : w.(gal).(likedCards) = collect_liked w.(store) w.(gal).(cards) ∅
}.

(** Every submit of the run happens at a [Date.now()] whose id
    [card-<now>] is not listed yet. *)
Fixpoint fresh_adds (JSON_parse : string -> option json) (w : world) (os : list op)
  : Prop :=
  match os with
  | [] => True
  | o :: os' =>
      (match o with
       | OpSubmit now => ~ In ("card-" ++ string_of_N now) (map id w.(gal).(cards))
       | _ => True
       end) /\
      match step JSON_parse w o with
      | Some w' => fresh_adds JSON_parse w' os'
      | None => True
      end
  end.

(** A page reached by loading a store that holds flags and then running
    actions whose submits all use fresh ids. *)
Definition reachable (JSON_parse : string -> option json) (w : world) : Prop :=
  exists st w0 os,
    store_wf st /\ app_load JSON_parse st = Some w0 /\
    fresh_adds JSON_parse w0 os /\ run JSON_parse w0 os = Some w.

(** What holds of every page reached from any load, whatever the store
    and the ids: the mounted Cards are the listed cards and the liked-set
    only holds listed ids. *)
Definition liked_listed (w : world) : Prop :=
  map fst w.(mounted) = w.(gal).(cards) /\
  w.(gal).(likedCards) ⊆ list_to_set (map id w.(gal).(cards)).

(** No store entry is left for a seed card that is no longer listed. *)
Definition seed_entries_cleared (w : world) : Prop :=
  forall c, In c initialCards -> ~ In c.(id) (map id w.(gal).(cards)) ->
  w.(store) !! storage_key c.(id) = None.

(** [disabled={!newCardTitle.trim()}] of the "Create" button. *)
Definition submit_disabled (g : gallery) : bool :=
  String.eqb (trim g.(newCardTitle)) EmptyString.

(** * Proofs *)

(** ** Strings and storage keys *)

Lemma string_length_app (a s : string) :
  String.length (a ++ s) = String.length a + String.length s.
Proof. induction a as [|ch a IH]; simpl; [reflexivity | now rewrite IH]. Qed.

Lemma string_app_inj_r (a b s : string) : a ++ s = b ++ s -> a = b.
Proof.
  revert b. induction a as [|ch a IH]; intros [|ch' b] H; simpl in H.
  - reflexivity.
  - apply (f_equal String.length) in H. simpl in H.
    rewrite !string_length_app in H. simpl in H. lia.
  - apply (f_equal String.length) in H. simpl in H.
    rewrite !string_length_app in H. simpl in H. lia.
  - injection H as -> H. now rewrite (IH b H).
Qed.

Lemma storage_key_inj (a b : string) : storage_key a = storage_key b -> a = b.
Proof.
  unfold storage_key. simpl. intros H.
  injection H as H. apply (string_app_inj_r a b "-liked"). exact H.
Qed.

Lemma storage_key_ne (a b : string) : a <> b -> storage_key a <> storage_key b.
Proof. intros Hab Hk. apply Hab, storage_key_inj, Hk. Qed.

Lemma truthy_id_nonempty (s : string) : s <> EmptyString -> truthy_id (Some s) = true.
Proof.
  intros H. unfold truthy_id. destruct (String.eqb_spec s EmptyString); [congruence | reflexivity].
Qed.

Lemma new_card_id_nonempty (now : N) (g : gallery) : (new_card now g).(id) <> EmptyString.
Proof. unfold new_card. simpl. discriminate. Qed.

(** ** Well-formed stores *)

Lemma stringify_flag_text (b : bool) : flag_text (stringify_bool b).
Proof. destruct b; [left | right]; reflexivity. Qed.

Lemma liked_from_storage_insert_eq (st : storage) (c : card) (b : bool) :
  liked_from_storage (<[storage_key c.(id) := stringify_bool b]> st) c = b.
Proof. unfold liked_from_storage. rewrite lookup_insert_eq. destruct b; reflexivity. Qed.

Lemma liked_from_storage_insert_ne (st : storage) (c : card) (k v : string) :
  k <> c.(id) -> liked_from_storage (<[storage_key k := v]> st) c = liked_from_storage st c.
Proof.
  intros H. unfold liked_from_storage.
  rewrite lookup_insert_ne; [reflexivity | now apply storage_key_ne].
Qed.

Lemma liked_from_storage_delete_ne (st : storage) (c : card) (k : string) :
  k <> c.(id) -> liked_from_storage (delete (storage_key k) st) c = liked_from_storage st c.
Proof.
  intros H. unfold liked_from_storage.
  rewrite lookup_delete_ne; [reflexivity | now apply storage_key_ne].
Qed.

(** ** The Card's seeding agrees with the Gallery's string test *)

Section Seeding.

Variable JSON_parse : string -> option json.
Hypothesis parse_true : JSON_parse "true" = Some (JBool true).
Hypothesis parse_false : JSON_parse "false" = Some (JBool false).

Lemma card_init_agrees (st : storage) (c : card) :
  c.(id) <> EmptyString ->
  (forall v, st !! storage_key c.(id) = Some v -> flag_text v) ->
  card_init JSON_parse (app_card_props c) st = Some (JBool (liked_from_storage st c)).
Proof.
  intros Hid Hst. unfold card_init, liked_from_storage, app_card_props.
  cbn [p_cardId p_initialLiked]. rewrite (truthy_id_nonempty _ Hid).
  destruct (st !! storage_key c.(id)) as [v|] eqn:E.
  - destruct (Hst v eq_refl) as [-> | ->]; simpl; assumption.
  - simpl. destruct (initialLiked c); reflexivity.
Qed.

Lemma mount_card_wf (st : storage) (c : card) :
  store_wf st -> c.(id) <> EmptyString ->
  mount_card JSON_parse st c = Some (c, JBool (liked_from_storage st c)).
Proof.
  intros Hst Hid. unfold mount_card.
  rewrite card_init_agrees; [reflexivity | exact Hid |].
  intros v Hv. exact (Hst _ _ Hv).
Qed.

Lemma mount_all_wf (st : storage) (cs : list card) :
  store_wf st -> Forall (fun c => c.(id) <> EmptyString) cs ->
  mount_all JSON_parse st cs = Some (map (fun c => (c, JBool (liked_from_storage st c))) cs).
Proof.
  intros Hst. induction cs as [|c cs IH]; intros Hcs; simpl; [reflexivity|].
  inversion Hcs as [|? ? Hc Hcs']; subst.
  rewrite (mount_card_wf st c Hst Hc), (IH Hcs'). reflexivity.
Qed.

End Seeding.

(** ** Mounting *)

Lemma mount_all_some (JSON_parse : string -> option json) (st : storage)
  (cs : list card) (ms : list (card * json)) :
  mount_all JSON_parse st cs = Some ms ->
  map fst ms = cs /\
  Forall (fun m : card * json => card_init JSON_parse (app_card_props m.1) st = Some m.2) ms.
Proof.
  revert ms. induction cs as [|c cs IH]; intros ms H; simpl in H.
  - injection H as <-. split; [reflexivity | constructor].
  - unfold mount_card in H.
    destruct (card_init JSON_parse (app_card_props c) st) as [v|] eqn:Ev; [|discriminate].
    destruct (mount_all JSON_parse st cs) as [ms'|]; [|discriminate].
    injection H as <-. destruct (IH ms' eq_refl) as [Hf HF].
    split; [simpl; now rewrite Hf | constructor; assumption].
Qed.

Lemma card_init_app_props (JSON_parse : string -> option json) (st : storage) (c : card) :
  c.(id) <> EmptyString ->
  card_init JSON_parse (app_card_props c) st =
  match st !! storage_key c.(id) with
  | Some s => JSON_parse s
  | None => Some (JBool c.(initialLiked))
  end.
Proof.
  intros Hid. unfold card_init, app_card_props. cbn [p_cardId p_initialLiked].
  now rewrite (truthy_id_nonempty _ Hid).
Qed.

(** ** C2 *)

(** C2: at the initial load the Cards are the seed list, and each Card's
    like state is [JSON.parse] of the flag persisted under its key when one
    exists, whatever its seed flag, and its seed flag [initialLiked]
    otherwise. *)
Theorem initial_state_from_persisted_flag (JSON_parse : string -> option json)
  (st : storage) (w : world) :
  app_load JSON_parse st = Some w ->
  map fst w.(mounted) = initialCards /\
  Forall (fun m : card * json =>
     (forall s, st !! storage_key m.1.(id) = Some s -> JSON_parse s = Some m.2) /\
     (st !! storage_key m.1.(id) = None -> m.2 = JBool m.1.(initialLiked)))
    w.(mounted).
Proof.
  unfold app_load. destruct (mount_all JSON_parse st initialCards) as [ms|] eqn:E;
    [|discriminate].
  intros H. injection H as <-. simpl.
  destruct (mount_all_some _ _ _ _ E) as [Hf HF]. split; [exact Hf|].
  assert (Hids : Forall (fun m : card * json => m.1.(id) <> EmptyString) ms).
  { apply Forall_forall. intros [c v] Hm.
    assert (Hin : In c initialCards) by (rewrite <- Hf; apply (in_map fst ms (c, v)); now apply list_elem_of_In).
    simpl in Hin |- *. intuition (subst; simpl in *; discriminate). }
  apply Forall_forall. intros [c v] Hm.
  pose proof (proj1 (Forall_forall _ _) HF _ Hm) as Hi.
  pose proof (proj1 (Forall_forall _ _) Hids _ Hm) as Hid. simpl in Hi, Hid |- *.
  rewrite (card_init_app_props _ _ _ Hid) in Hi.
  split.
  - intros s Hs. now rewrite Hs in Hi.
  - intros Hs. rewrite Hs in Hi. now injection Hi as <-.
Qed.

Lemma initial_state_from_persisted_flag_witness :
  exists w, app_load json_parse_lit store_react_unliked = Some w /\
  map fst w.(mounted) = initialCards /\
  Forall (fun m : card * json =>
     (forall s, store_react_unliked !! storage_key m.1.(id) = Some s ->
                json_parse_lit s = Some m.2) /\
     (store_react_unliked !! storage_key m.1.(id) = None ->
      m.2 = JBool m.1.(initialLiked)))
    w.(mounted).
Proof.
  eexists. split.
  - vm_compute. reflexivity.
  - apply (initial_state_from_persisted_flag json_parse_lit store_react_unliked).
    vm_compute. reflexivity.
Defined.

(** ** C3 *)

Lemma apply_store_app (es1 es2 : list effect) (st : storage) :
  apply_store (es1 ++ es2)%list st = apply_store es2 (apply_store es1 st).
Proof.
  revert st. induction es1 as [|e es1 IH]; intros st; [reflexivity|].
  destruct e; simpl; apply IH.
Qed.

(** C3, as stated, fails: a card with no persisted entry ([js-fundamentals]
    on an empty store) has an entry ["false"] after two toggles, so the
    store does not return to its earlier content. *)
Lemma double_toggle_leaves_new_entry :
  ~ (let p := app_card_props {| id := "js-fundamentals";
                                title := "JavaScript Fundamentals";
                                initialLiked := false |} in
     (double_toggle p (JBool false) ∅).1 = JBool false /\
     (double_toggle p (JBool false) ∅).2 !! storage_key "js-fundamentals" =
       (∅ : storage) !! storage_key "js-fundamentals").
Proof. vm_compute. intros [_ H]. discriminate H. Qed.

(** C3 (amended): two toggles from a boolean like state [b] bring the
    in-memory state back to [b]; the store entry under the card's key is
    then the text of [b] ("true" or "false"), restored if it held that
    before, created if it was absent; a Card without a (non-empty) id
    leaves the store as it was. *)
Theorem double_toggle_restores_state (p : card_props) (b : bool) (st : storage) :
  (double_toggle p (JBool b) st).1 = JBool b /\
  (double_toggle p (JBool b) st).2 =
    match p.(p_cardId) with
    | Some cardId =>
        if truthy_id (Some cardId)
        then <[storage_key cardId := stringify_bool b]> st else st
    | None => st
    end.
Proof.
  unfold double_toggle, toggleLike. simpl. rewrite negb_involutive. split; [reflexivity|].
  rewrite apply_store_app.
  destruct (p_cardId p) as [cardId|]; [destruct (String.eqb cardId EmptyString)|];
    destruct (p_onLikeChange p); simpl; try reflexivity;
    apply insert_insert_eq.
Qed.

(** ** C9 *)

(** C9: for a card of the Gallery (its id is never empty) and a store whose
    entry under the card's key is absent, "true" or "false", the Card's
    [useState] seed is the boolean the Gallery's resync computes with
    [savedState === 'true' || (savedState === null && card.initialLiked)]. *)
Theorem gallery_check_matches_card_seed (JSON_parse : string -> option json)
  (Htrue : JSON_parse "true" = Some (JBool true))
  (Hfalse : JSON_parse "false" = Some (JBool false))
  (st : storage) (c : card) (Hid : c.(id) <> EmptyString)
  (Hst : st !! storage_key c.(id) = None \/ st !! storage_key c.(id) = Some "true" \/
         st !! storage_key c.(id) = Some "false") :
  card_init JSON_parse (app_card_props c) st = Some (JBool (liked_from_storage st c)).
Proof.
  apply card_init_agrees; [exact Htrue | exact Hfalse | exact Hid |].
  intros v Hv. unfold flag_text.
  destruct Hst as [H | [H | H]]; rewrite H in Hv; try discriminate;
    injection Hv as <-; auto.
Qed.

Lemma gallery_check_matches_card_seed_witness :
  json_parse_lit "true" = Some (JBool true) /\
  json_parse_lit "false" = Some (JBool false) /\
  card_init json_parse_lit (app_card_props (hd {| id := EmptyString; title := EmptyString;
                                                  initialLiked := false |} initialCards))
    store_react_unliked =
  Some (JBool (liked_from_storage store_react_unliked
                 (hd {| id := EmptyString; title := EmptyString; initialLiked := false |}
                    initialCards))).
Proof.
  split; [reflexivity|]. split; [reflexivity|].
  apply (gallery_check_matches_card_seed json_parse_lit eq_refl eq_refl).
  - simpl. discriminate.
  - right. right. vm_compute. reflexivity.
Defined.

(** ** C10 *)

(** C10: a Card whose [cardId] is [null] neither reads nor writes the store:
    it seeds from [initialLiked], toggling flips its state and reports
    [(null, new state)] to [onLikeChange] when supplied, and a confirmed
    delete only reports [null] to [onDelete] when supplied. *)
Theorem null_cardId_never_touches_store (JSON_parse : string -> option json)
  (p : card_props) (Hnull : p.(p_cardId) = None) :
  (forall st, card_init JSON_parse p st = Some (JBool p.(p_initialLiked))) /\
  (forall v : json,
     (toggleLike p v).1 = JBool (negb (truthy v)) /\
     Forall (fun e => is_store_effect e = false) (toggleLike p v).2 /\
     (p.(p_onLikeChange) = true ->
      In (CallLikeChange None (negb (truthy v))) (toggleLike p v).2)) /\
  Forall (fun e => is_store_effect e = false) (handleDelete p true) /\
  (p.(p_onDelete) = true -> In (CallDelete None) (handleDelete p true)).
Proof.
  destruct p as [t il cid olc od]; simpl in Hnull; subst cid.
  unfold card_init, toggleLike, handleDelete; simpl.
  split; [reflexivity|]. split.
  - intros v. split; [reflexivity|].
    destruct olc; simpl; split; repeat constructor; intros; auto; discriminate.
  - destruct od; simpl; split; repeat constructor; intros; auto; discriminate.
Qed.

Lemma null_cardId_never_touches_store_witness :
  {| p_title := "T"; p_initialLiked := true; p_cardId := None;
     p_onLikeChange := true; p_onDelete := true |}.(p_cardId) = None /\
  handleDelete {| p_title := "T"; p_initialLiked := true; p_cardId := None;
                  p_onLikeChange := true; p_onDelete := true |} true <> [].
Proof.
  split; [reflexivity|].
  destruct (null_cardId_never_touches_store json_parse_lit
              {| p_title := "T"; p_initialLiked := true; p_cardId := None;
                 p_onLikeChange := true; p_onDelete := true |} eq_refl)
    as [_ [_ [_ Hdel]]].
  intros E. rewrite E in Hdel. exact (Hdel eq_refl).
Defined.

(** ** C7 *)

(** C7: an unconfirmed delete does nothing: the Card emits no effect and the
    page (Gallery state, every Card's state, the store) is unchanged; a
    confirmed one removes the card's entry (when it has a non-empty id) and
    calls [onDelete] (when supplied). *)
Theorem unconfirmed_delete_has_no_effect (JSON_parse : string -> option json)
  (p : card_props) (w : world) (i : nat) :
  handleDelete p false = [] /\
  step JSON_parse w (OpDelete i false) = Some w /\
  (forall k, p.(p_cardId) = Some k -> k <> EmptyString ->
   In (RemoveItem (storage_key k)) (handleDelete p true)) /\
  (p.(p_onDelete) = true -> In (CallDelete p.(p_cardId)) (handleDelete p true)).
Proof.
  split; [reflexivity|]. split.
  - destruct w as [g ms st]. unfold step. simpl.
    destruct (ms !! i) as [[c v]|]; reflexivity.
  - split.
    + intros k Hk Hne. unfold handleDelete. rewrite Hk, (truthy_id_nonempty _ Hne).
      simpl. left. reflexivity.
    + intros Hod. unfold handleDelete. rewrite Hod.
      apply in_or_app. right. left. reflexivity.
Qed.

Lemma unconfirmed_delete_has_no_effect_witness :
  In (RemoveItem (storage_key "react-dev"))
     (handleDelete (app_card_props (hd {| id := EmptyString; title := EmptyString;
                                         initialLiked := false |} initialCards)) true).
Proof.
  destruct (unconfirmed_delete_has_no_effect json_parse_lit
              (app_card_props (hd {| id := EmptyString; title := EmptyString;
                                     initialLiked := false |} initialCards))
              fresh_world 0) as [_ [_ [H _]]].
  apply H; [reflexivity | discriminate].
Defined.

(** ** C6 *)

(** C6: with a blank pending title (empty after [trim]) [handleAddCard]
    changes nothing, and submitting the form leaves the whole page as it
    was, with no render failure. *)
Theorem add_blank_title_noop (JSON_parse : string -> option json) (now : N) (w : world)
  (Hblank : trim w.(gal).(newCardTitle) = EmptyString) :
  handleAddCard now w.(gal) = w.(gal) /\ step JSON_parse w (OpSubmit now) = Some w.
Proof.
  assert (Hh : handleAddCard now w.(gal) = w.(gal))
    by (unfold handleAddCard; now rewrite Hblank).
  split; [exact Hh|].
  destruct w as [g ms st]. unfold step. simpl in *.
  destruct (isAddingCard g); [|reflexivity].
  rewrite Hblank. simpl. now rewrite Hh.
Qed.

Lemma add_blank_title_noop_witness :
  trim (typing_world "  ").(gal).(newCardTitle) = EmptyString /\
  step json_parse_lit (typing_world "  ") (OpSubmit 1700000000000) = Some (typing_world "  ").
Proof.
  assert (H : trim (typing_world "  ").(gal).(newCardTitle) = EmptyString)
    by (vm_compute; reflexivity).
  split; [exact H|].
  exact (proj2 (add_blank_title_noop json_parse_lit 1700000000000 (typing_world "  ") H)).
Defined.

(** ** C4 *)

(** C4, as stated, fails: the id is [card-] followed by [Date.now()] and
    nothing checks it against the list; after adding "A" at time 5, adding
    "B" while [Date.now()] still reads 5 yields the id of the card already
    listed. *)
Lemma add_card_id_can_repeat :
  exists w, run json_parse_lit fresh_world (removelast same_time_adds) = Some w /\
  In (new_card 5 w.(gal)).(id) (map id w.(gal).(cards)).
Proof.
  eexists. split.
  - vm_compute. reflexivity.
  - vm_compute. tauto.
Qed.

Lemma map_id_app_single (cs : list card) (c : card) :
  map id (cs ++ [c])%list = (map id cs ++ [c.(id)])%list.
Proof. now rewrite map_app. Qed.

(** C4 (amended): with a non-blank pending title, [handleAddCard] appends
    one card whose id is [card-] followed by [Date.now()], whose title is
    the trimmed input and which starts unliked, clears the input and closes
    the form; the ids stay pairwise distinct when that id is not already
    listed (no collision check is made). *)
Theorem add_card_appends (now : N) (g : gallery)
  (Htitle : trim g.(newCardTitle) <> EmptyString) :
  totalCards (handleAddCard now g) = S (totalCards g) /\
  (handleAddCard now g).(cards) =
    (g.(cards) ++ [{| id := "card-" ++ string_of_N now;
                      title := trim g.(newCardTitle);
                      initialLiked := false |}])%list /\
  (handleAddCard now g).(newCardTitle) = EmptyString /\
  (handleAddCard now g).(isAddingCard) = false /\
  (~ In ("card-" ++ string_of_N now) (map id g.(cards)) ->
   NoDup (map id g.(cards)) -> NoDup (map id (handleAddCard now g).(cards))).
Proof.
  assert (Hne : String.eqb (trim g.(newCardTitle)) EmptyString = false)
    by (destruct (String.eqb_spec (trim g.(newCardTitle)) EmptyString); congruence).
  unfold handleAddCard, totalCards. rewrite Hne. simpl.
  split; [rewrite length_app; simpl; lia|].
  split; [reflexivity|]. split; [reflexivity|]. split; [reflexivity|].
  intros Hfresh Hnd. rewrite map_id_app_single.
  apply NoDup_app. split; [exact Hnd|]. split; [|apply NoDup_singleton].
  intros x Hx Hy. apply list_elem_of_singleton in Hy. subst x.
  apply Hfresh, list_elem_of_In, Hx.
Qed.

Lemma add_card_appends_witness :
  trim "  Algorithms " <> EmptyString /\
  (handleAddCard 1700000000000 (typing_world "  Algorithms ").(gal)).(cards) =
    (initialCards ++ [{| id := "card-1700000000000"; title := "Algorithms";
                         initialLiked := false |}])%list.
Proof.
  assert (H : trim (typing_world "  Algorithms ").(gal).(newCardTitle) <> EmptyString)
    by (vm_compute; discriminate).
  split; [exact H|].
  exact (proj1 (proj2 (add_card_appends 1700000000000 (typing_world "  Algorithms ").(gal) H))).
Defined.

(** ** C8 *)

(** C8, as stated, fails: the boundary wraps the header (statistics and
    add-card form) and the footer as well as the card list, so a Card whose
    render throws (its stored flag is not JSON) takes the header down too. *)
Lemma boundary_fault_hides_header :
  mount_all json_parse_lit store_unparsable initialCards = None /\
  App_render false gallery_init (mount_all json_parse_lit store_unparsable initialCards)
    = (true, [RErrorPanel]) /\
  (forall t l n a s,
     ~ In (RHeader t l n a s)
         (App_render false gallery_init
            (mount_all json_parse_lit store_unparsable initialCards)).2).
Proof.
  split; [vm_compute; reflexivity|]. split; [vm_compute; reflexivity|].
  intros t l n a s. vm_compute. intros [H|[]]. discriminate H.
Qed.

(** C8 (amended): a render failure anywhere under the boundary (header,
    card list or footer) replaces all of it with the error panel, which
    stays until "Try Again"; that action only clears the error flag, so
    the next render shows the children built from the Gallery's current,
    unrestored state, or the panel again when they still throw. *)
Theorem boundary_replaces_all_content (g : gallery) :
  App_render false g None = (true, [RErrorPanel]) /\
  (forall ms, App_render true g ms = (true, [RErrorPanel])) /\
  (forall ms, App_render (tryAgain true) g (Some ms) = (false, gallery_regions g ms)) /\
  App_render (tryAgain true) g None = (true, [RErrorPanel]).
Proof.
  unfold App_render, ErrorBoundary_render, tryAgain.
  split; [reflexivity|]. split; [reflexivity|]. split; reflexivity.
Qed.

(** ** The liked-set computed by the resync effect *)

Lemma collect_liked_spec (st : storage) (cs : list card) (acc : gset string) :
  collect_liked st cs acc =
  acc ∪ list_to_set (map id (List.filter (liked_from_storage st) cs)).
Proof.
  revert acc. induction cs as [|c cs IH]; intros acc; simpl.
  - set_solver.
  - rewrite IH. destruct (liked_from_storage st c); simpl; set_solver.
Qed.

Lemma elem_collect (st : storage) (cs : list card) (x : string) :
  x ∈ collect_liked st cs ∅ <->
  exists c, In c cs /\ liked_from_storage st c = true /\ c.(id) = x.
Proof.
  rewrite collect_liked_spec, elem_of_union, elem_of_list_to_set, list_elem_of_In, in_map_iff.
  split.
  - intros [H|[c [<- Hc]]]; [set_solver|]. apply filter_In in Hc. exists c. tauto.
  - intros [c [Hc [Hl <-]]]. right. exists c. split; [reflexivity|]. now apply filter_In.
Qed.

Lemma NoDup_map_id_filter (f : card -> bool) (cs : list card) :
  NoDup (map id cs) -> NoDup (map id (List.filter f cs)).
Proof.
  induction cs as [|c cs IH]; simpl; intros H; [constructor|].
  apply NoDup_cons in H as [Hn H].
  destruct (f c); simpl; [|auto].
  apply NoDup_cons. split; [|auto].
  intros Hin. apply Hn. apply list_elem_of_In in Hin. apply list_elem_of_In.
  apply in_map_iff in Hin as [c' [Hc' Hin]]. apply filter_In in Hin.
  apply in_map_iff. exists c'. tauto.
Qed.

Lemma size_collect (st : storage) (cs : list card) :
  NoDup (map id cs) ->
  size (collect_liked st cs ∅) = length (List.filter (liked_from_storage st) cs).
Proof.
  intros H. rewrite collect_liked_spec, union_empty_l_L, size_list_to_set.
  - apply length_map.
  - now apply NoDup_map_id_filter.
Qed.

Lemma rendered_liked_eq (st : storage) (ms : list (card * json)) :
  Forall (fun m : card * json => m.2 = JBool (liked_from_storage st m.1)) ms ->
  rendered_liked ms = length (List.filter (liked_from_storage st) (map fst ms)).
Proof.
  unfold rendered_liked. induction ms as [|[c v] ms IH]; simpl; intros H; [reflexivity|].
  inversion H as [|? ? Hv Hms]; subst. simpl in Hv. subst v. simpl.
  destruct (liked_from_storage st c); simpl; rewrite IH; auto.
Qed.

Lemma inv_like_count (w : world) : inv w -> likeCount w.(gal) = rendered_liked w.(mounted).
Proof.
  intros [Hm Hnd _ _ Hs Hl]. unfold likeCount. rewrite Hl, (size_collect _ _ Hnd).
  rewrite (rendered_liked_eq _ _ Hs), Hm. reflexivity.
Qed.

Lemma liked_from_storage_insert_same (st : storage) (c : card) (k : string) (b : bool) :
  c.(id) = k -> liked_from_storage (<[storage_key k := stringify_bool b]> st) c = b.
Proof. intros <-. apply liked_from_storage_insert_eq. Qed.

(** The resync after a toggle equals the callback's update of the set. *)
Lemma collect_after_set (st : storage) (cs : list card) (c : card) (b : bool) :
  In c cs ->
  collect_liked (<[storage_key c.(id) := stringify_bool b]> st) cs ∅ =
  (if b then {[c.(id)]} ∪ collect_liked st cs ∅ else collect_liked st cs ∅ ∖ {[c.(id)]}).
Proof.
  intros Hc. apply set_eq. intros x. rewrite elem_collect.
  destruct b.
  - rewrite elem_of_union, elem_of_singleton, elem_collect. split.
    + intros [c' [Hin [Hl Hx]]].
      destruct (decide (x = c.(id))) as [->|Hne]; [now left|]. right. exists c'.
      rewrite liked_from_storage_insert_ne in Hl by congruence. tauto.
    + intros [->|[c' [Hin [Hl Hx]]]].
      * exists c. split; [exact Hc|]. split; [apply liked_from_storage_insert_eq | reflexivity].
      * exists c'. split; [exact Hin|]. split; [|exact Hx].
        destruct (decide (c'.(id) = c.(id))) as [E|Hne].
        -- now apply liked_from_storage_insert_same.
        -- rewrite liked_from_storage_insert_ne by congruence. exact Hl.
  - rewrite elem_of_difference, elem_of_singleton, elem_collect. split.
    + intros [c' [Hin [Hl Hx]]].
      destruct (decide (c'.(id) = c.(id))) as [E|Hne].
      * rewrite liked_from_storage_insert_same in Hl by exact E. discriminate.
      * rewrite liked_from_storage_insert_ne in Hl by congruence.
        split; [exists c'; tauto | congruence].
    + intros [[c' [Hin [Hl Hx]]] Hne]. exists c'. split; [exact Hin|]. split; [|exact Hx].
      rewrite liked_from_storage_insert_ne by congruence. exact Hl.
Qed.

(** ** Lists of cards and mounted Cards *)

Lemma lookup_map_std {A B : Type} (f : A -> B) (l : list A) (i : nat) :
  map f l !! i = option_map f (l !! i).
Proof. revert i. induction l as [|x l IH]; intros [|i]; simpl; auto. Qed.

Lemma filter_id_keep (k : string) (cs : list card) :
  ~ In k (map id cs) -> List.filter (fun c => negb (String.eqb c.(id) k)) cs = cs.
Proof.
  induction cs as [|c cs IH]; simpl; intros H; [reflexivity|].
  destruct (String.eqb_spec c.(id) k); [tauto|]. simpl. f_equal. apply IH. tauto.
Qed.

Lemma map_fst_filter_id (k : string) (ms : list (card * json)) :
  map fst (List.filter (fun m => negb (String.eqb m.1.(id) k)) ms) =
  List.filter (fun c => negb (String.eqb c.(id) k)) (map fst ms).
Proof.
  induction ms as [|[c v] ms IH]; simpl; [reflexivity|].
  destruct (negb (String.eqb c.(id) k)); simpl; now rewrite IH.
Qed.

Lemma Forall_filter_impl {A : Type} (P Q : A -> Prop) (f : A -> bool) (l : list A) :
  (forall x, f x = true -> P x -> Q x) -> Forall P l -> Forall Q (List.filter f l).
Proof.
  intros HPQ. induction l as [|x l IH]; simpl; intros H; [constructor|].
  inversion H as [|? ? Hx Hl]; subst. destruct (f x) eqn:E; [constructor|]; auto.
Qed.

Lemma map_fst_insert_same (ms : list (card * json)) (i : nat) (c : card) (v v' : json) :
  ms !! i = Some (c, v) -> map fst (<[i := (c, v')]> ms) = map fst ms.
Proof.
  revert i. induction ms as [|m ms IH]; intros [|i] H; simpl in H |- *; try discriminate.
  - injection H as ->. reflexivity.
  - now rewrite (IH i H).
Qed.

(** ** The shape of each step *)

Section Steps.

Variable JSON_parse : string -> option json.

Lemma step_toggle (w : world) (i : nat) (c : card) (v : json) :
  w.(mounted) !! i = Some (c, v) -> c.(id) <> EmptyString ->
  step JSON_parse w (OpToggle i) =
  Some {| gal := handleLikeChange c.(id) (negb (truthy v)) w.(gal);
          mounted := <[i := (c, JBool (negb (truthy v)))]> w.(mounted);
          store := <[storage_key c.(id) := stringify_bool (negb (truthy v))]> w.(store) |}.
Proof.
  intros Hi Hid. unfold step. rewrite Hi.
  unfold toggleLike, app_card_props. cbn [p_cardId p_onLikeChange p_title].
  rewrite (truthy_id_nonempty _ Hid). reflexivity.
Qed.

Lemma step_delete_confirmed (w : world) (i : nat) (c : card) (v : json) :
  w.(mounted) !! i = Some (c, v) -> c.(id) <> EmptyString ->
  step JSON_parse w (OpDelete i true) =
  Some {| gal := resync_liked (delete (storage_key c.(id)) w.(store))
                   (handleCardDelete c.(id) w.(gal));
          mounted := List.filter (fun m => negb (String.eqb m.1.(id) c.(id))) w.(mounted);
          store := delete (storage_key c.(id)) w.(store) |}.
Proof.
  intros Hi Hid. unfold step. rewrite Hi.
  unfold handleDelete, app_card_props. cbn [p_cardId p_onDelete p_title].
  rewrite (truthy_id_nonempty _ Hid). reflexivity.
Qed.

Lemma step_delete_unconfirmed (w : world) (i : nat) :
  step JSON_parse w (OpDelete i false) = Some w.
Proof.
  destruct w as [g ms st]. unfold step. simpl.
  destruct (ms !! i) as [[c v]|]; reflexivity.
Qed.

Lemma step_submit_add (w : world) (now : N) (m : card * json) :
  w.(gal).(isAddingCard) = true -> trim w.(gal).(newCardTitle) <> EmptyString ->
  mount_card JSON_parse w.(store) (new_card now w.(gal)) = Some m ->
  step JSON_parse w (OpSubmit now) =
  Some {| gal := resync_liked w.(store) (handleAddCard now w.(gal));
          mounted := (w.(mounted) ++ [m])%list; store := w.(store) |}.
Proof.
  intros Ha Ht Hm. unfold step. rewrite Ha.
  destruct (String.eqb_spec (trim w.(gal).(newCardTitle)) EmptyString) as [E|_];
    [contradiction|].
  simpl. rewrite Hm. reflexivity.
Qed.

Lemma step_submit_blank (w : world) (now : N) :
  trim w.(gal).(newCardTitle) = EmptyString -> step JSON_parse w (OpSubmit now) = Some w.
Proof.
  destruct w as [g ms st]. unfold step, handleAddCard. simpl. intros Ht.
  destruct (isAddingCard g); [|reflexivity].
  rewrite Ht. simpl. reflexivity.
Qed.

End Steps.

(** ** The invariant is established by the load and kept by every step *)

Section Invariant.

Variable JSON_parse : string -> option json.
Hypothesis parse_true : JSON_parse "true" = Some (JBool true).
Hypothesis parse_false : JSON_parse "false" = Some (JBool false).

Lemma initialCards_ids : Forall (fun c => c.(id) <> EmptyString) initialCards.
Proof. repeat constructor; simpl; discriminate. Qed.

Lemma inv_load (st : storage) :
  store_wf st -> exists w, app_load JSON_parse st = Some w /\ inv w.
Proof.
  intros Hst. unfold app_load.
  rewrite (mount_all_wf JSON_parse parse_true parse_false st initialCards Hst initialCards_ids).
  eexists. split; [reflexivity|]. constructor; simpl.
  - reflexivity.
  - apply (proj1 (bool_decide_eq_true _)). vm_compute. reflexivity.
  - exact initialCards_ids.
  - exact Hst.
  - repeat constructor.
  - reflexivity.
Qed.

Lemma inv_toggle (w : world) (i : nat) :
  inv w -> exists w', step JSON_parse w (OpToggle i) = Some w' /\ inv w'.
Proof.
  intros Hinv. destruct (w.(mounted) !! i) as [[c v]|] eqn:Hi.
  2: { exists w. split; [unfold step; now rewrite Hi | exact Hinv]. }
  destruct Hinv as [Hm Hnd Hids Hst Hs Hl].
  assert (Hci : w.(gal).(cards) !! i = Some c)
    by (rewrite <- Hm, lookup_map_std, Hi; reflexivity).
  assert (Hid : c.(id) <> EmptyString) by exact (Forall_lookup_1 _ _ _ _ Hids Hci).
  assert (Hv : v = JBool (liked_from_storage w.(store) c))
    by exact (Forall_lookup_1 _ _ _ _ Hs Hi).
  assert (Hin : In c w.(gal).(cards))
    by (apply list_elem_of_In; exact (list_elem_of_lookup_2 _ _ _ Hci)).
  rewrite (step_toggle JSON_parse w i c v Hi Hid). eexists. split; [reflexivity|].
  subst v. simpl truthy. set (b := negb (liked_from_storage w.(store) c)).
  constructor; simpl.
  - rewrite (map_fst_insert_same _ i c _ _ Hi). exact Hm.
  - exact Hnd.
  - exact Hids.
  - apply map_Forall_insert_2; [apply stringify_flag_text | exact Hst].
  - apply Forall_lookup. intros j [c' v'] Hj.
    destruct (decide (i = j)) as [<-|Hij].
    + rewrite list_lookup_insert_eq in Hj by exact (lookup_lt_Some _ _ _ Hi).
      injection Hj as <- <-. simpl. now rewrite liked_from_storage_insert_eq.
    + rewrite list_lookup_insert_ne in Hj by exact Hij.
      pose proof (Forall_lookup_1 _ _ _ _ Hs Hj) as Hv'. simpl in Hv' |- *.
      assert (Hcj : w.(gal).(cards) !! j = Some c')
        by (rewrite <- Hm, lookup_map_std, Hj; reflexivity).
      assert (Hne : c.(id) <> c'.(id)).
      { intros E. apply Hij. apply (NoDup_lookup (map id w.(gal).(cards)) i j c.(id) Hnd).
        - now rewrite lookup_map_std, Hci.
        - now rewrite lookup_map_std, Hcj, E. }
      rewrite liked_from_storage_insert_ne by exact Hne. exact Hv'.
  - rewrite Hl. symmetry. apply collect_after_set. exact Hin.
Qed.

Lemma inv_delete (w : world) (i : nat) (confirmed : bool) :
  inv w -> exists w', step JSON_parse w (OpDelete i confirmed) = Some w' /\ inv w'.
Proof.
  intros Hinv. destruct confirmed.
  2: { exists w. split; [apply step_delete_unconfirmed | exact Hinv]. }
  destruct (w.(mounted) !! i) as [[c v]|] eqn:Hi.
  2: { exists w. split; [unfold step; now rewrite Hi | exact Hinv]. }
  destruct Hinv as [Hm Hnd Hids Hst Hs Hl].
  assert (Hci : w.(gal).(cards) !! i = Some c)
    by (rewrite <- Hm, lookup_map_std, Hi; reflexivity).
  assert (Hid : c.(id) <> EmptyString) by exact (Forall_lookup_1 _ _ _ _ Hids Hci).
  rewrite (step_delete_confirmed JSON_parse w i c v Hi Hid). eexists. split; [reflexivity|].
  constructor; simpl.
  - rewrite map_fst_filter_id, Hm. reflexivity.
  - now apply NoDup_map_id_filter.
  - apply (Forall_filter_impl _ _ _ _ (fun _ _ H => H) Hids).
  - now apply map_Forall_delete.
  - refine (Forall_filter_impl _ _ _ _ _ Hs).
    intros [c' v'] Hk Hv'. simpl in Hk, Hv' |- *.
    rewrite liked_from_storage_delete_ne; [exact Hv'|].
    intros E. rewrite E, String.eqb_refl in Hk. discriminate.
  - reflexivity.
Qed.

Lemma inv_submit (w : world) (now : N) :
  inv w -> ~ In ("card-" ++ string_of_N now) (map id w.(gal).(cards)) ->
  exists w', step JSON_parse w (OpSubmit now) = Some w' /\ inv w'.
Proof.
  intros Hinv Hfresh.
  destruct (isAddingCard w.(gal)) eqn:Ha.
  2: { exists w. split; [unfold step; now rewrite Ha | exact Hinv]. }
  destruct (String.eqb_spec (trim w.(gal).(newCardTitle)) EmptyString) as [Hb|Hb].
  { exists w. split; [now apply step_submit_blank | exact Hinv]. }
  destruct Hinv as [Hm Hnd Hids Hst Hs Hl].
  rewrite (step_submit_add JSON_parse w now _ Ha Hb
             (mount_card_wf JSON_parse parse_true parse_false _ _ Hst
                (new_card_id_nonempty now w.(gal)))).
  eexists. split; [reflexivity|].
  assert (Hc : (handleAddCard now w.(gal)).(cards) = (w.(gal).(cards) ++ [new_card now w.(gal)])%list).
  { unfold handleAddCard. destruct (String.eqb_spec (trim w.(gal).(newCardTitle)) EmptyString);
      [contradiction | reflexivity]. }
  constructor; simpl; rewrite ?Hc.
  - rewrite map_app, Hm. reflexivity.
  - rewrite map_id_app_single. apply NoDup_app. split; [exact Hnd|].
    split; [|apply NoDup_singleton].
    intros x Hx Hy. apply list_elem_of_singleton in Hy. subst x.
    apply Hfresh, list_elem_of_In, Hx.
  - apply Forall_app. split; [exact Hids|]. constructor; [apply new_card_id_nonempty | constructor].
  - exact Hst.
  - apply Forall_app. split; [exact Hs|]. repeat constructor.
  - reflexivity.
Qed.

Lemma inv_step (w : world) (o : op) :
  inv w ->
  match o with
  | OpSubmit now => ~ In ("card-" ++ string_of_N now) (map id w.(gal).(cards))
  | _ => True
  end ->
  exists w', step JSON_parse w o = Some w' /\ inv w'.
Proof.
  intros Hinv Hfresh. destruct o as [i|i confirmed| |s| |now].
  - now apply inv_toggle.
  - now apply inv_delete.
  - eexists. split; [reflexivity|]. destruct Hinv; constructor; assumption.
  - unfold step. destruct (isAddingCard w.(gal)).
    + eexists. split; [reflexivity|]. destruct Hinv; constructor; assumption.
    + exists w. split; [reflexivity | exact Hinv].
  - eexists. split; [reflexivity|]. destruct Hinv; constructor; assumption.
  - now apply inv_submit.
Qed.

Lemma inv_run (w : world) (os : list op) :
  inv w -> fresh_adds JSON_parse w os ->
  exists w', run JSON_parse w os = Some w' /\ inv w'.
Proof.
  revert w. induction os as [|o os IH]; intros w Hinv Hf; simpl in Hf |- *.
  - exists w. split; [reflexivity | exact Hinv].
  - destruct Hf as [Ho Hrest].
    destruct (inv_step w o Hinv Ho) as [w1 [Hs Hi1]].
    rewrite Hs in Hrest |- *. now apply IH.
Qed.

End Invariant.

(** ** C1 *)

(** C1, as stated, fails: after loading with an empty store, adding "A"
    and "B" while [Date.now()] reads 5 both times gives two cards with id
    [card-5]; liking both shows four "Liked" Cards while the liked-set,
    holding [card-5] once, counts three. *)
Lemma like_count_diverges_on_repeated_timestamp :
  app_load json_parse_lit ∅ = Some fresh_world /\
  exists w, run json_parse_lit fresh_world (same_time_adds ++ [OpToggle 4; OpToggle 5])%list
            = Some w /\
  likeCount w.(gal) = 3 /\ rendered_liked w.(mounted) = 4.
Proof.
  split; [vm_compute; reflexivity|].
  eexists. split; [vm_compute; reflexivity|]. split; vm_compute; reflexivity.
Qed.

(** C1 (amended): when the store holds only "true"/"false" flags at load and
    every card is added at a [Date.now()] whose id [card-<now>] is not yet
    listed, after any sequence of toggles, deletes, adds and form edits the
    liked count ([likedCards.size]) equals the number of Cards showing
    "Liked", and no render fails. *)
Theorem like_count_matches_rendered (JSON_parse : string -> option json)
  (Htrue : JSON_parse "true" = Some (JBool true))
  (Hfalse : JSON_parse "false" = Some (JBool false))
  (st : storage) (Hst : store_wf st) :
  exists w0, app_load JSON_parse st = Some w0 /\
  forall os : list op, fresh_adds JSON_parse w0 os ->
  exists w, run JSON_parse w0 os = Some w /\ likeCount w.(gal) = rendered_liked w.(mounted).
Proof.
  destruct (inv_load JSON_parse Htrue Hfalse st Hst) as [w0 [Hl Hi0]].
  exists w0. split; [exact Hl|]. intros os Hf.
  destruct (inv_run JSON_parse Htrue Hfalse w0 os Hi0 Hf) as [w [Hr Hi]].
  exists w. split; [exact Hr | now apply inv_like_count].
Qed.

Lemma like_count_matches_rendered_witness :
  exists w0, app_load json_parse_lit store_react_unliked = Some w0 /\
  forall os : list op, fresh_adds json_parse_lit w0 os ->
  exists w, run json_parse_lit w0 os = Some w /\ likeCount w.(gal) = rendered_liked w.(mounted).
Proof.
  apply (like_count_matches_rendered json_parse_lit eq_refl eq_refl store_react_unliked).
  unfold store_react_unliked. apply map_Forall_singleton. right. reflexivity.
Defined.

(** ** C5 *)

(** C5, as stated, fails: after adding "A" and "B" while [Date.now()]
    reads 5 both times, two listed cards have the id [card-5]; confirming
    the delete on the Card of "B" filters both out of the list, which goes
    from 6 cards to 4. *)
Lemma confirmed_delete_removes_both_duplicates :
  exists w c v, run json_parse_lit fresh_world same_time_adds = Some w /\
  w.(mounted) !! 5 = Some (c, v) /\ c.(id) = "card-5" /\
  totalCards w.(gal) = 6 /\
  totalCards (handleCardDelete c.(id) w.(gal)) = 4 /\
  exists w', step json_parse_lit w (OpDelete 5 true) = Some w' /\ totalCards w'.(gal) = 4.
Proof.
  do 3 eexists. split; [vm_compute; reflexivity|]. split; [vm_compute; reflexivity|].
  split; [reflexivity|]. split; [vm_compute; reflexivity|]. split; [vm_compute; reflexivity|].
  eexists. split; [vm_compute; reflexivity | vm_compute; reflexivity].
Qed.

(** C5 (amended): on a page whose mounted Cards are the listed cards, with distinct
    non-empty ids, a confirmed delete from the [i]-th Card removes exactly
    that card from the list, takes its id out of the liked-set (in
    [handleCardDelete] and after the resync) and removes its entry from the
    store; [handleCardDelete] on an id that is not listed leaves the list
    as it is. *)
Theorem confirmed_delete_removes_card (JSON_parse : string -> option json) (w : world)
  (Hm : map fst w.(mounted) = w.(gal).(cards))
  (Hnd : NoDup (map id w.(gal).(cards)))
  (Hids : Forall (fun c => c.(id) <> EmptyString) w.(gal).(cards)) :
  (forall i c v, w.(mounted) !! i = Some (c, v) ->
   exists pre post w',
     w.(gal).(cards) = (pre ++ c :: post)%list /\
     step JSON_parse w (OpDelete i true) = Some w' /\
     w'.(gal).(cards) = (pre ++ post)%list /\
     (c.(id) ∉ (handleCardDelete c.(id) w.(gal)).(likedCards)) /\
     (c.(id) ∉ w'.(gal).(likedCards)) /\
     w'.(store) = delete (storage_key c.(id)) w.(store)) /\
  (forall cardId, ~ In cardId (map id w.(gal).(cards)) ->
   (handleCardDelete cardId w.(gal)).(cards) = w.(gal).(cards)).
Proof.
  split.
  - intros i c v Hi.
    assert (Hci : w.(gal).(cards) !! i = Some c)
      by (rewrite <- Hm, lookup_map_std, Hi; reflexivity).
    assert (Hid : c.(id) <> EmptyString) by exact (Forall_lookup_1 _ _ _ _ Hids Hci).
    assert (Hin : In c w.(gal).(cards))
      by (apply list_elem_of_In; exact (list_elem_of_lookup_2 _ _ _ Hci)).
    destruct (in_split _ _ Hin) as [pre [post Hsplit]].
    assert (Hout : ~ In c.(id) (map id pre ++ map id post)%list).
    { apply (NoDup_remove_2 (map id pre) (map id post) c.(id)).
      replace (map id pre ++ id c :: map id post)%list with (map id (pre ++ c :: post))
        by (rewrite map_app; reflexivity).
      rewrite <- Hsplit. apply (proj1 (NoDup_ListNoDup _)). exact Hnd. }
    exists pre, post. eexists. split; [exact Hsplit|].
    split; [exact (step_delete_confirmed JSON_parse w i c v Hi Hid)|]. simpl.
    split.
    { rewrite Hsplit, List.filter_app. simpl. rewrite String.eqb_refl. simpl.
      rewrite !filter_id_keep; [reflexivity| |];
        intros H; apply Hout, in_or_app; tauto. }
    split; [set_solver|]. split; [|reflexivity].
    rewrite elem_collect. intros [c' [Hc' [_ Hx]]]. simpl in Hc'.
    apply filter_In in Hc' as [_ Hk]. rewrite Hx, String.eqb_refl in Hk. discriminate.
  - intros cardId Hnot. simpl. now apply filter_id_keep.
Qed.

Lemma confirmed_delete_removes_card_witness :
  exists pre post w',
    fresh_world.(gal).(cards) = (pre ++ hd {| id := EmptyString; title := EmptyString;
                                             initialLiked := false |} initialCards :: post)%list /\
    step json_parse_lit fresh_world (OpDelete 0 true) = Some w' /\
    w'.(gal).(cards) = (pre ++ post)%list /\
    ("react-dev" ∉ (handleCardDelete "react-dev" fresh_world.(gal)).(likedCards)) /\
    ("react-dev" ∉ w'.(gal).(likedCards)) /\
    w'.(store) = delete (storage_key "react-dev") fresh_world.(store).
Proof.
  refine (proj1 (confirmed_delete_removes_card json_parse_lit fresh_world _ _ _) 0 _ (JBool true) _).
  - reflexivity.
  - apply (proj1 (bool_decide_eq_true _)). vm_compute. reflexivity.
  - exact initialCards_ids.
  - reflexivity.
Defined.

(** * Further properties of the code *)

(** ** The liked-set only holds listed ids, from any load *)

Lemma collect_subset_ids (st : storage) (cs : list card) :
  collect_liked st cs ∅ ⊆ list_to_set (map id cs).
Proof.
  intros x Hx. apply elem_collect in Hx as [c [Hc [_ <-]]].
  apply elem_of_list_to_set, list_elem_of_In, in_map, Hc.
Qed.

Lemma size_list_to_set_le (l : list string) :
  size (list_to_set l : gset string) <= length l.
Proof.
  induction l as [|x l IH].
  - change (size (∅ : gset string) <= 0). rewrite size_empty. lia.
  - change (size ({[x]} ∪ list_to_set l : gset string) <= S (length l)).
    rewrite size_union_alt, size_singleton.
    pose proof (subseteq_size (list_to_set l ∖ {[x]} : gset string) (list_to_set l)
                  ltac:(set_solver)). lia.
Qed.

Lemma mount_card_fst (JSON_parse : string -> option json) (st : storage) (c : card)
  (m : card * json) :
  mount_card JSON_parse st c = Some m -> m.1 = c.
Proof.
  unfold mount_card. destruct (card_init JSON_parse (app_card_props c) st); [|discriminate].
  now intros [= <-].
Qed.

Section AnyStore.

Variable JSON_parse : string -> option json.

Lemma step_toggle_any (w : world) (i : nat) (c : card) (v : json) :
  w.(mounted) !! i = Some (c, v) ->
  exists st', step JSON_parse w (OpToggle i) =
  Some {| gal := handleLikeChange c.(id) (negb (truthy v)) w.(gal);
          mounted := <[i := (c, JBool (negb (truthy v)))]> w.(mounted);
          store := st' |}.
Proof.
  intros Hi. unfold step. rewrite Hi.
  unfold toggleLike, app_card_props. cbn [p_cardId p_onLikeChange p_title].
  destruct (truthy_id (Some c.(id))); eexists; reflexivity.
Qed.

Lemma step_delete_any (w : world) (i : nat) (c : card) (v : json) :
  w.(mounted) !! i = Some (c, v) ->
  exists st', step JSON_parse w (OpDelete i true) =
  Some {| gal := resync_liked st' (handleCardDelete c.(id) w.(gal));
          mounted := List.filter (fun m => negb (String.eqb m.1.(id) c.(id))) w.(mounted);
          store := st' |}.
Proof.
  intros Hi. unfold step. rewrite Hi.
  unfold handleDelete, app_card_props. cbn [p_cardId p_onDelete p_title].
  destruct (truthy_id (Some c.(id))); eexists; reflexivity.
Qed.

Lemma liked_listed_load (st : storage) (w : world) :
  app_load JSON_parse st = Some w -> liked_listed w.
Proof.
  unfold app_load. destruct (mount_all JSON_parse st initialCards) as [ms|] eqn:E;
    [|discriminate].
  intros [= <-]. split;
    [exact (proj1 (mount_all_some _ _ _ _ E)) | exact (collect_subset_ids st initialCards)].
Qed.

Lemma liked_listed_step (w w' : world) (o : op) :
  liked_listed w -> step JSON_parse w o = Some w' -> liked_listed w'.
Proof.
  intros [Hm Hsub] Hs. destruct o as [i|i [|]| |s| |now].
  - destruct (w.(mounted) !! i) as [[c v]|] eqn:Hi.
    2: { unfold step in Hs. rewrite Hi in Hs. injection Hs as <-. now split. }
    destruct (step_toggle_any w i c v Hi) as [st' E]. rewrite E in Hs.
    injection Hs as <-.
    assert (Hin : c.(id) ∈ (list_to_set (map id w.(gal).(cards)) : gset string)).
    { apply elem_of_list_to_set, list_elem_of_In. rewrite <- Hm, map_map.
      apply (in_map (fun m : card * json => id m.1) _ (c, v)).
      apply list_elem_of_In, (list_elem_of_lookup_2 _ _ _ Hi). }
    split; simpl.
    + rewrite (map_fst_insert_same _ i c _ _ Hi). exact Hm.
    + destruct (negb (truthy v)); set_solver.
  - destruct (w.(mounted) !! i) as [[c v]|] eqn:Hi.
    2: { unfold step in Hs. rewrite Hi in Hs. injection Hs as <-. now split. }
    destruct (step_delete_any w i c v Hi) as [st' E]. rewrite E in Hs.
    injection Hs as <-. split; simpl.
    + rewrite map_fst_filter_id, Hm. reflexivity.
    + apply collect_subset_ids.
  - rewrite step_delete_unconfirmed in Hs. injection Hs as <-. now split.
  - injection Hs as <-. now split.
  - unfold step in Hs. destruct (isAddingCard w.(gal)); injection Hs as <-; now split.
  - injection Hs as <-. now split.
  - unfold step in Hs. destruct (isAddingCard w.(gal)) eqn:Ha.
    2: { injection Hs as <-. now split. }
    destruct (String.eqb (trim w.(gal).(newCardTitle)) EmptyString) eqn:Hb; simpl in Hs.
    + injection Hs as <-. unfold handleAddCard. rewrite Hb. now split.
    + destruct (mount_card JSON_parse w.(store) (new_card now w.(gal))) as [m|] eqn:Em;
        [|discriminate].
      injection Hs as <-. split.
      * pose proof (mount_card_fst _ _ _ _ Em) as Hf. destruct m as [c' v'].
        simpl in Hf. subst c'.
        unfold handleAddCard. rewrite Hb. cbn [mounted gal cards resync_liked].
        rewrite map_app, Hm. reflexivity.
      * exact (collect_subset_ids _ _).
Qed.

Lemma liked_listed_run (w w' : world) (os : list op) :
  liked_listed w -> run JSON_parse w os = Some w' -> liked_listed w'.
Proof.
  revert w. induction os as [|o os IH]; intros w Hw Hr; simpl in Hr.
  - now injection Hr as <-.
  - destruct (step JSON_parse w o) as [w1|] eqn:E; [|discriminate].
    exact (IH w1 (liked_listed_step w w1 o Hw E) Hr).
Qed.

End AnyStore.

(** X1: whatever the store holds at load (no assumption on its entries or
    on [JSON.parse]), when every card is added at a [Date.now()] whose id is
    not yet listed, after any run the liked-set only holds ids of listed
    cards, so
    the liked count never exceeds the card count and the "Not Liked"
    statistic [totalCards - likeCount] is never negative. *)
Theorem liked_set_within_listed (JSON_parse : string -> option json) (st : storage)
  (w0 w : world) (os : list op)
  (Hload : app_load JSON_parse st = Some w0)
  (Hfresh : fresh_adds JSON_parse w0 os)
  (Hrun : run JSON_parse w0 os = Some w) :
  (forall x, x ∈ w.(gal).(likedCards) -> In x (map id w.(gal).(cards))) /\
  likeCount w.(gal) <= totalCards w.(gal).
Proof.
  destruct (liked_listed_run JSON_parse w0 w os (liked_listed_load JSON_parse st w0 Hload) Hrun)
    as [_ Hsub].
  split.
  - intros x Hx. apply list_elem_of_In. apply (proj1 (elem_of_list_to_set (C:=gset string) _ _)).
    now apply Hsub.
  - unfold likeCount, totalCards.
    pose proof (subseteq_size _ _ Hsub). pose proof (size_list_to_set_le (map id w.(gal).(cards))).
    rewrite length_map in *. lia.
Qed.

Lemma liked_set_within_listed_witness :
  exists w0 w,
    app_load json_parse_lit store_react_null = Some w0 /\
    fresh_adds json_parse_lit w0 edit_session /\
    run json_parse_lit w0 edit_session = Some w /\
    likeCount w.(gal) <= totalCards w.(gal).
Proof.
  eexists. eexists. split; [vm_compute; reflexivity|].
  assert (Hf : fresh_adds json_parse_lit (page_after store_react_null []) edit_session)
    by (vm_compute; intuition discriminate).
  split; [exact Hf|]. split; [vm_compute; reflexivity|].
  eapply (liked_set_within_listed json_parse_lit store_react_null _ _ edit_session);
    [vm_compute; reflexivity | exact Hf | vm_compute; reflexivity].
Defined.

(** ** Reachable pages *)

Lemma nodup_same_id (cs : list card) (c c' : card) :
  NoDup (map id cs) -> In c cs -> In c' cs -> c.(id) = c'.(id) -> c = c'.
Proof.
  induction cs as [|x cs IH]; simpl; intros Hnd Hc Hc' E; [contradiction|].
  apply NoDup_cons in Hnd as [Hn Hnd].
  destruct Hc as [<-|Hc], Hc' as [<-|Hc']; auto.
  - exfalso. apply Hn. apply list_elem_of_In. rewrite E. now apply in_map.
  - exfalso. apply Hn. apply list_elem_of_In. rewrite <- E. now apply in_map.
Qed.

Lemma length_filter_split {A : Type} (f : A -> bool) (l : list A) :
  length l = length (List.filter f l) + length (List.filter (fun x => negb (f x)) l).
Proof. induction l as [|x l IH]; simpl; [reflexivity|]. destruct (f x); simpl; lia. Qed.

Lemma liked_from_storage_absent (st : storage) (c : card) :
  st !! storage_key c.(id) = None -> liked_from_storage st c = c.(initialLiked).
Proof. unfold liked_from_storage. intros ->. simpl. now destruct (initialLiked c). Qed.

Lemma inv_lookup (w : world) (i : nat) (c : card) (v : json) :
  inv w -> w.(mounted) !! i = Some (c, v) ->
  w.(gal).(cards) !! i = Some c /\ In c w.(gal).(cards) /\ c.(id) <> EmptyString /\
  v = JBool (liked_from_storage w.(store) c).
Proof.
  intros [Hm Hnd Hids Hst Hs Hl] Hi.
  assert (Hci : w.(gal).(cards) !! i = Some c)
    by (rewrite <- Hm, lookup_map_std, Hi; reflexivity).
  split; [exact Hci|]. split.
  - apply list_elem_of_In. exact (list_elem_of_lookup_2 _ _ _ Hci).
  - split; [exact (Forall_lookup_1 _ _ _ _ Hids Hci) | exact (Forall_lookup_1 _ _ _ _ Hs Hi)].
Qed.

Section Reach.

Variable JSON_parse : string -> option json.
Hypothesis parse_true : JSON_parse "true" = Some (JBool true).
Hypothesis parse_false : JSON_parse "false" = Some (JBool false).

Lemma seed_step (w w' : world) (o : op) :
  inv w -> seed_entries_cleared w -> step JSON_parse w o = Some w' ->
  seed_entries_cleared w'.
Proof.
  intros Hinv Hseed Hs. destruct o as [i|i [|]| |s| |now].
  - destruct (w.(mounted) !! i) as [[c0 v]|] eqn:Hi.
    2: { unfold step in Hs. rewrite Hi in Hs. now injection Hs as <-. }
    destruct (inv_lookup w i c0 v Hinv Hi) as [_ [Hin [Hid _]]].
    rewrite (step_toggle JSON_parse w i c0 v Hi Hid) in Hs. injection Hs as <-.
    intros c Hc Hnot. cbn [gal store handleLikeChange cards] in Hnot |- *.
    assert (Hne : c0.(id) <> c.(id)) by (intros E; apply Hnot; rewrite <- E; now apply in_map).
    rewrite lookup_insert_ne by (now apply storage_key_ne). now apply Hseed.
  - destruct (w.(mounted) !! i) as [[c0 v]|] eqn:Hi.
    2: { unfold step in Hs. rewrite Hi in Hs. now injection Hs as <-. }
    destruct (inv_lookup w i c0 v Hinv Hi) as [_ [Hin [Hid _]]].
    rewrite (step_delete_confirmed JSON_parse w i c0 v Hi Hid) in Hs. injection Hs as <-.
    intros c Hc Hnot. cbn [gal store resync_liked handleCardDelete cards] in Hnot |- *.
    destruct (String.eqb_spec c0.(id) c.(id)) as [E|Hne].
    + rewrite E. apply lookup_delete_eq.
    + rewrite lookup_delete_ne by (now apply storage_key_ne). apply Hseed; [exact Hc|].
      intros Hin'. apply Hnot. apply in_map_iff in Hin' as [c' [Hc'id Hc']].
      apply in_map_iff. exists c'. split; [exact Hc'id|]. apply filter_In.
      split; [exact Hc'|]. rewrite Hc'id.
      destruct (String.eqb_spec c.(id) c0.(id)); [congruence | reflexivity].
  - rewrite step_delete_unconfirmed in Hs. now injection Hs as <-.
  - injection Hs as <-. exact Hseed.
  - unfold step in Hs. destruct (isAddingCard w.(gal)); injection Hs as <-; exact Hseed.
  - injection Hs as <-. exact Hseed.
  - unfold step in Hs. destruct (isAddingCard w.(gal)) eqn:Ha.
    2: { injection Hs as <-. exact Hseed. }
    destruct (String.eqb (trim w.(gal).(newCardTitle)) EmptyString) eqn:Hb; simpl in Hs.
    + injection Hs as <-. unfold seed_entries_cleared, handleAddCard. rewrite Hb. exact Hseed.
    + destruct (mount_card JSON_parse w.(store) (new_card now w.(gal))) as [m|];
        [|discriminate].
      injection Hs as <-. intros c Hc Hnot.
      unfold handleAddCard in Hnot. rewrite Hb in Hnot.
      cbn [gal store resync_liked cards negb] in Hnot |- *.
      apply Hseed; [exact Hc|]. intros Hin. apply Hnot.
      rewrite map_app. apply in_or_app. now left.
Qed.

Lemma reach_run (w w' : world) (os : list op) :
  inv w -> seed_entries_cleared w -> fresh_adds JSON_parse w os ->
  run JSON_parse w os = Some w' -> inv w' /\ seed_entries_cleared w'.
Proof.
  revert w. induction os as [|o os IH]; intros w Hi Hs Hf Hr; simpl in Hf, Hr.
  - injection Hr as <-. now split.
  - destruct Hf as [Ho Hf].
    destruct (inv_step JSON_parse parse_true parse_false w o Hi Ho) as [w1 [E Hi1]].
    rewrite E in Hf, Hr. exact (IH w1 Hi1 (seed_step w w1 o Hi Hs E) Hf Hr).
Qed.

Lemma reachable_props (w : world) :
  reachable JSON_parse w -> inv w /\ seed_entries_cleared w.
Proof.
  intros [st [w0 [os [Hst [Hl [Hf Hr]]]]]].
  destruct (inv_load JSON_parse parse_true parse_false st Hst) as [w0' [Hl' Hi0]].
  rewrite Hl in Hl'. injection Hl' as <-.
  apply (reach_run w0 w os Hi0); [|exact Hf | exact Hr].
  intros c Hc Hnot. exfalso. apply Hnot.
  unfold app_load in Hl. destruct (mount_all JSON_parse st initialCards); [|discriminate].
  injection Hl as <-. cbn [gal resync_liked gallery_init cards]. now apply in_map.
Qed.

End Reach.

Lemma reachable_fresh_world : reachable json_parse_lit fresh_world.
Proof.
  exists ∅, fresh_world, []. split; [apply map_Forall_empty|].
  split; [vm_compute; reflexivity|]. split; [exact I | reflexivity].
Qed.

Lemma reachable_edit_session : reachable json_parse_lit (page_after ∅ edit_session).
Proof.
  exists ∅, fresh_world, edit_session. split; [apply map_Forall_empty|].
  split; [vm_compute; reflexivity|]. split.
  - vm_compute. intuition discriminate.
  - vm_compute. reflexivity.
Qed.

(** X2: on every reachable page the liked-set is exactly the set of ids
    of listed cards whose stored flag is "true" (or that have no entry and
    are seeded liked): the like and delete callbacks never let it drift
    from what a resync from the current store computes, and the store
    holds only "true"/"false". *)
Theorem liked_set_tracks_store (JSON_parse : string -> option json)
  (Htrue : JSON_parse "true" = Some (JBool true))
  (Hfalse : JSON_parse "false" = Some (JBool false))
  (w : world) (Hr : reachable JSON_parse w) :
  store_wf w.(store) /\
  forall x, x ∈ w.(gal).(likedCards) <->
    exists c, In c w.(gal).(cards) /\ c.(id) = x /\ liked_from_storage w.(store) c = true.
Proof.
  destruct (reachable_props JSON_parse Htrue Hfalse w Hr) as [Hi _].
  split; [exact (inv_store w Hi)|]. intros x.
  rewrite (inv_liked w Hi), elem_collect.
  split; intros [c [H1 [H2 H3]]]; exists c; tauto.
Qed.

Lemma liked_set_tracks_store_witness :
  reachable json_parse_lit fresh_world /\
  store_wf fresh_world.(store) /\
  forall x, x ∈ fresh_world.(gal).(likedCards) <->
    exists c, In c fresh_world.(gal).(cards) /\ c.(id) = x /\
              liked_from_storage fresh_world.(store) c = true.
Proof.
  split; [exact reachable_fresh_world|].
  exact (liked_set_tracks_store json_parse_lit eq_refl eq_refl fresh_world reachable_fresh_world).
Defined.

(** X3: on every reachable page the statistics header shows as "Total
    Cards" the number of rendered Cards and as "Not Liked" the number of
    rendered Cards showing "Not Liked". *)
Theorem header_counts_rendered_cards (JSON_parse : string -> option json)
  (Htrue : JSON_parse "true" = Some (JBool true))
  (Hfalse : JSON_parse "false" = Some (JBool false))
  (w : world) (Hr : reachable JSON_parse w) :
  exists liked a s rest,
    gallery_regions w.(gal) w.(mounted) =
    RHeader (Z.of_nat (length w.(mounted))) liked
      (Z.of_nat (length (List.filter (fun m => negb (truthy m.2)) w.(mounted)))) a s :: rest.
Proof.
  destruct (reachable_props JSON_parse Htrue Hfalse w Hr) as [Hi _].
  pose proof (inv_like_count w Hi) as Hl.
  assert (Ht : totalCards w.(gal) = length w.(mounted))
    by (unfold totalCards; rewrite <- (inv_mounted w Hi); apply length_map).
  pose proof (length_filter_split (fun m : card * json => truthy m.2) w.(mounted)) as Hsplit.
  unfold rendered_liked in Hl.
  do 4 eexists. unfold gallery_regions. rewrite Ht, Hl. f_equal. f_equal. lia.
Qed.

Lemma header_counts_rendered_cards_witness :
  reachable json_parse_lit fresh_world /\
  exists liked a s rest,
    gallery_regions fresh_world.(gal) fresh_world.(mounted) =
    RHeader (Z.of_nat (length fresh_world.(mounted))) liked
      (Z.of_nat (length (List.filter (fun m => negb (truthy m.2)) fresh_world.(mounted))))
      a s :: rest.
Proof.
  split; [exact reachable_fresh_world|].
  exact (header_counts_rendered_cards json_parse_lit eq_refl eq_refl fresh_world
           reachable_fresh_world).
Defined.

(** X4: on a reachable page, clicking the like button of the same Card twice
    returns the Gallery state (cards, liked-set, form) and every Card's
    state to what they were; the store then holds the text of the Card's
    original state under its key. *)
Theorem double_toggle_restores_page (JSON_parse : string -> option json)
  (Htrue : JSON_parse "true" = Some (JBool true))
  (Hfalse : JSON_parse "false" = Some (JBool false))
  (w : world) (Hr : reachable JSON_parse w) (i : nat) (c : card) (v : json)
  (Hi : w.(mounted) !! i = Some (c, v)) :
  exists w2, run JSON_parse w [OpToggle i; OpToggle i] = Some w2 /\
  w2.(gal) = w.(gal) /\ w2.(mounted) = w.(mounted) /\
  w2.(store) = <[storage_key c.(id) := stringify_bool (truthy v)]> w.(store).
Proof.
  destruct (reachable_props JSON_parse Htrue Hfalse w Hr) as [Hinv _].
  destruct (inv_lookup w i c v Hinv Hi) as [_ [Hin [Hid Hv]]].
  set (b := liked_from_storage w.(store) c) in Hv.
  assert (Hi2 : (<[i := (c, JBool (negb (truthy v)))]> w.(mounted)) !! i =
                Some (c, JBool (negb (truthy v))))
    by (apply list_lookup_insert_eq; exact (lookup_lt_Some _ _ _ Hi)).
  cbn [run]. rewrite (step_toggle JSON_parse w i c v Hi Hid).
  rewrite (step_toggle JSON_parse _ i c (JBool (negb (truthy v)))); [| exact Hi2 | exact Hid].
  eexists. split; [reflexivity|]. cbn [gal mounted store truthy]. rewrite negb_involutive.
  split; [|split].
  - pose proof (inv_liked w Hinv) as Hl. pose proof (inv_nodup w Hinv) as Hnd.
    assert (Hmem : c.(id) ∈ w.(gal).(likedCards) <-> b = true).
    { rewrite Hl, elem_collect. split.
      - intros [c' [Hc' [Hb E]]].
        rewrite (nodup_same_id _ c' c Hnd Hc' Hin E) in Hb. exact Hb.
      - intros Hb. exists c. tauto. }
    clearbody b. subst v. cbn [truthy]. clear Hl Hi Hi2 Hr.
    destruct w as [[cs S t a] ms st]. unfold handleLikeChange. cbn in *. f_equal.
    destruct b; cbn.
    + assert (H : c.(id) ∈ S) by tauto.
      apply set_eq. intros x. rewrite elem_of_union, elem_of_difference, elem_of_singleton.
      destruct (decide (x = c.(id))) as [->|Hne]; tauto.
    + assert (H : c.(id) ∉ S) by (intros H; apply Hmem in H; discriminate).
      apply set_eq. intros x. rewrite elem_of_difference, elem_of_union, elem_of_singleton.
      destruct (decide (x = c.(id))) as [->|Hne]; tauto.
  - rewrite list_insert_insert_eq. apply list_insert_id. rewrite Hi, Hv. reflexivity.
  - apply insert_insert_eq.
Qed.

Lemma double_toggle_restores_page_witness :
  reachable json_parse_lit fresh_world /\
  fresh_world.(mounted) !! 1 = Some (nth 1 initialCards (hd (hd {| id := EmptyString;
      title := EmptyString; initialLiked := false |} initialCards) initialCards),
      JBool false) /\
  exists w2, run json_parse_lit fresh_world [OpToggle 1; OpToggle 1] = Some w2 /\
  w2.(gal) = fresh_world.(gal) /\ w2.(mounted) = fresh_world.(mounted) /\
  w2.(store) = <[storage_key "js-fundamentals" := stringify_bool false]> fresh_world.(store).
Proof.
  assert (H : fresh_world.(mounted) !! 1 = Some (nth 1 initialCards (hd (hd {| id := EmptyString;
      title := EmptyString; initialLiked := false |} initialCards) initialCards),
      JBool false)) by reflexivity.
  split; [exact reachable_fresh_world|]. split; [exact H|].
  exact (double_toggle_restores_page json_parse_lit eq_refl eq_refl fresh_world
           reachable_fresh_world 1 _ _ H).
Defined.

(** X5: on a reachable page, clicking the like buttons of two different
    Cards gives the same page (Gallery state, Card states, store) in
    either order. *)
Theorem toggles_commute (JSON_parse : string -> option json)
  (Htrue : JSON_parse "true" = Some (JBool true))
  (Hfalse : JSON_parse "false" = Some (JBool false))
  (w : world) (Hr : reachable JSON_parse w) (i j : nat) (Hij : i <> j)
  (Hi : is_Some (w.(mounted) !! i)) (Hj : is_Some (w.(mounted) !! j)) :
  run JSON_parse w [OpToggle i; OpToggle j] = run JSON_parse w [OpToggle j; OpToggle i].
Proof.
  destruct (reachable_props JSON_parse Htrue Hfalse w Hr) as [Hinv _].
  destruct Hi as [[c v] Hi], Hj as [[c' v'] Hj].
  destruct (inv_lookup w i c v Hinv Hi) as [Hci [_ [Hid _]]].
  destruct (inv_lookup w j c' v' Hinv Hj) as [Hcj [_ [Hid' _]]].
  assert (Hne : c.(id) <> c'.(id)).
  { intros E. apply Hij.
    apply (NoDup_lookup (map id w.(gal).(cards)) i j c.(id) (inv_nodup _ Hinv)).
    - now rewrite lookup_map_std, Hci.
    - now rewrite lookup_map_std, Hcj, E. }
  cbn [run].
  rewrite (step_toggle JSON_parse w i c v Hi Hid), (step_toggle JSON_parse w j c' v' Hj Hid').
  rewrite (step_toggle JSON_parse _ j c' v'); [| cbn [mounted];
    rewrite list_lookup_insert_ne by congruence; exact Hj | exact Hid'].
  rewrite (step_toggle JSON_parse _ i c v); [| cbn [mounted];
    rewrite list_lookup_insert_ne by congruence; exact Hi | exact Hid].
  cbn [gal mounted store]. f_equal. f_equal.
  - destruct w as [[cs S t a] ms st]. unfold handleLikeChange. cbn. f_equal.
    destruct (negb (truthy v)), (negb (truthy v')); set_solver.
  - now apply list_insert_insert_ne.
  - apply insert_insert_ne. now apply storage_key_ne.
Qed.

Lemma toggles_commute_witness :
  reachable json_parse_lit fresh_world /\ 0 <> 2 /\
  is_Some (fresh_world.(mounted) !! 0) /\ is_Some (fresh_world.(mounted) !! 2) /\
  run json_parse_lit fresh_world [OpToggle 0; OpToggle 2] =
  run json_parse_lit fresh_world [OpToggle 2; OpToggle 0].
Proof.
  assert (H0 : is_Some (fresh_world.(mounted) !! 0)) by (eexists; reflexivity).
  assert (H2 : is_Some (fresh_world.(mounted) !! 2)) by (eexists; reflexivity).
  split; [exact reachable_fresh_world|]. split; [lia|]. split; [exact H0|]. split; [exact H2|].
  exact (toggles_commute json_parse_lit eq_refl eq_refl fresh_world reachable_fresh_world
           0 2 ltac:(lia) H0 H2).
Defined.

(** X6: reloading a reachable page (a new load on its store) lists the
    seed cards only, so cards added earlier are gone; a seed Card still
    listed comes back in the state it showed, and a deleted seed card
    comes back in its seed state [initialLiked]. *)
Theorem reload_restores_seed_states (JSON_parse : string -> option json)
  (Htrue : JSON_parse "true" = Some (JBool true))
  (Hfalse : JSON_parse "false" = Some (JBool false))
  (w : world) (Hr : reachable JSON_parse w) :
  exists w', app_load JSON_parse w.(store) = Some w' /\
  map fst w'.(mounted) = initialCards /\
  (forall c v, In c initialCards -> In (c, v) w.(mounted) -> In (c, v) w'.(mounted)) /\
  (forall c, In c initialCards -> ~ In c.(id) (map id w.(gal).(cards)) ->
     In (c, JBool c.(initialLiked)) w'.(mounted)).
Proof.
  destruct (reachable_props JSON_parse Htrue Hfalse w Hr) as [Hinv Hseed].
  unfold app_load.
  rewrite (mount_all_wf JSON_parse Htrue Hfalse w.(store) initialCards (inv_store _ Hinv)
             initialCards_ids).
  eexists. split; [reflexivity|]. cbn [mounted]. split; [|split].
  - rewrite map_map. simpl. reflexivity.
  - intros c v Hc Hm.
    pose proof (proj1 (Forall_forall _ _) (inv_states _ Hinv) (c, v)
                  (proj2 (list_elem_of_In _ _) Hm)) as Hv.
    simpl in Hv. subst v.
    exact (in_map (fun c => (c, JBool (liked_from_storage w.(store) c))) _ _ Hc).
  - intros c Hc Hnot. rewrite <- (liked_from_storage_absent w.(store) c (Hseed c Hc Hnot)).
    exact (in_map (fun c => (c, JBool (liked_from_storage w.(store) c))) _ _ Hc).
Qed.

Lemma reload_restores_seed_states_witness :
  reachable json_parse_lit (page_after ∅ edit_session) /\
  exists w', app_load json_parse_lit (page_after ∅ edit_session).(store) = Some w' /\
  map fst w'.(mounted) = initialCards /\
  (forall c v, In c initialCards -> In (c, v) (page_after ∅ edit_session).(mounted) ->
     In (c, v) w'.(mounted)) /\
  (forall c, In c initialCards ->
     ~ In c.(id) (map id (page_after ∅ edit_session).(gal).(cards)) ->
     In (c, JBool c.(initialLiked)) w'.(mounted)).
Proof.
  split; [exact reachable_edit_session|].
  exact (reload_restores_seed_states json_parse_lit eq_refl eq_refl _ reachable_edit_session).
Defined.

(** ** Titles of added cards *)

Lemma list_trim_start (s : string) :
  (exists p, list_ascii_of_string s = p ++ list_ascii_of_string (trim_start s))%list /\
  (forall x r, list_ascii_of_string (trim_start s) = x :: r -> is_js_space x = false).
Proof.
  induction s as [|a s [[p Hp] Hh]]; simpl.
  - split; [exists []; reflexivity | discriminate].
  - destruct (is_js_space a) eqn:Ea.
    + split; [exists (a :: p); simpl; now rewrite <- Hp | exact Hh].
    + split; [exists []; reflexivity|]. simpl. intros x r [= <- _]. exact Ea.
Qed.

Lemma list_trim (s : string) :
  (forall x r, list_ascii_of_string (trim s) = x :: r -> is_js_space x = false) /\
  (forall x r, rev (list_ascii_of_string (trim s)) = x :: r -> is_js_space x = false).
Proof.
  destruct (list_trim_start s) as [_ Hs].
  unfold trim, trim_end. rewrite list_ascii_of_string_of_list_ascii.
  destruct (list_trim_start (string_of_list_ascii (rev (list_ascii_of_string (trim_start s)))))
    as [[p Hp] Hu].
  rewrite list_ascii_of_string_of_list_ascii in Hp.
  split.
  - intros x r E. apply (Hs x (r ++ rev p)%list).
    rewrite <- (rev_involutive (list_ascii_of_string (trim_start s))), Hp, rev_app_distr, E.
    reflexivity.
  - intros x r E. rewrite rev_involutive in E. exact (Hu x r E).
Qed.

(** X7: [handleAddCard] either leaves the Gallery as it is or appends one
    card whose title is not empty and neither starts nor ends with a
    whitespace character that [trim] removes. *)
Theorem added_title_trimmed (now : N) (g : gallery) :
  handleAddCard now g = g \/
  exists c, (handleAddCard now g).(cards) = (g.(cards) ++ [c])%list /\
    c.(title) <> EmptyString /\
    (forall x r, list_ascii_of_string c.(title) = x :: r -> is_js_space x = false) /\
    (forall x r, rev (list_ascii_of_string c.(title)) = x :: r -> is_js_space x = false).
Proof.
  unfold handleAddCard.
  destruct (String.eqb_spec (trim g.(newCardTitle)) EmptyString) as [E|Hne]; [now left|].
  right. exists (new_card now g). split; [reflexivity|]. cbn [title new_card].
  split; [exact Hne | exact (list_trim g.(newCardTitle))].
Qed.

(** X8: the "Create" button is disabled exactly when [handleAddCard] would
    leave the Gallery unchanged: an enabled button always adds a card. *)
Theorem create_disabled_iff_noop (now : N) (g : gallery) :
  submit_disabled g = true <-> handleAddCard now g = g.
Proof.
  unfold submit_disabled, handleAddCard.
  destruct (String.eqb (trim g.(newCardTitle)) EmptyString) eqn:E; simpl;
    split; intros H; try reflexivity; try discriminate.
  apply (f_equal (fun g' => length g'.(cards))) in H. simpl in H.
  rewrite length_app in H. simpl in H. lia.
Qed.

(** ** Render failures *)

Lemma mount_card_none (JSON_parse : string -> option json) (st : storage) (c : card) :
  c.(id) <> EmptyString ->
  mount_card JSON_parse st c = None <->
  exists s, st !! storage_key c.(id) = Some s /\ JSON_parse s = None.
Proof.
  intros Hid. unfold mount_card. rewrite (card_init_app_props _ _ _ Hid).
  destruct (st !! storage_key c.(id)) as [s|].
  - destruct (JSON_parse s) eqn:Ep; split; intros H; try discriminate.
    + destruct H as [s' [[= <-] H]]. congruence.
    + exists s. tauto.
    + reflexivity.
  - split; [discriminate | intros [s [H _]]; discriminate].
Qed.

Lemma mount_all_none (JSON_parse : string -> option json) (st : storage) (cs : list card) :
  Forall (fun c => c.(id) <> EmptyString) cs ->
  mount_all JSON_parse st cs = None <->
  exists c s, In c cs /\ st !! storage_key c.(id) = Some s /\ JSON_parse s = None.
Proof.
  induction cs as [|c cs IH]; intros Hids; simpl.
  - split; [discriminate | intros (c & s & [] & _)].
  - inversion Hids as [|? ? Hc Hcs]; subst. specialize (IH Hcs).
    pose proof (mount_card_none JSON_parse st c Hc) as Hmc.
    destruct (mount_card JSON_parse st c) as [m|]; [destruct (mount_all JSON_parse st cs)|].
    + split; [discriminate|]. intros (c' & s & [<-|Hin] & Hs & Hp).
      * assert (H : Some m = None) by (apply Hmc; now exists s). discriminate.
      * assert (H : Some l = None) by (apply IH; now exists c', s). discriminate.
    + split; [intros _|reflexivity].
      destruct (proj1 IH eq_refl) as (c' & s & Hin & Hs & Hp). exists c', s. tauto.
    + split; [intros _|reflexivity].
      destruct (proj1 Hmc eq_refl) as (s & Hs & Hp). exists c, s. tauto.
Qed.

(** X9: the initial load throws (the error boundary shows its panel)
    exactly when the store holds, under the key of some seed card, an
    entry that [JSON.parse] rejects. *)
Theorem load_fails_iff_unreadable_entry (JSON_parse : string -> option json) (st : storage) :
  app_load JSON_parse st = None <->
  exists c s, In c initialCards /\ st !! storage_key c.(id) = Some s /\ JSON_parse s = None.
Proof.
  unfold app_load. rewrite <- (mount_all_none JSON_parse st initialCards initialCards_ids).
  destruct (mount_all JSON_parse st initialCards); split; congruence.
Qed.

(** X10: with the form open and a non-blank title, a submit throws exactly
    when the store already holds, under the key of the new id [card-<now>],
    an entry that [JSON.parse] rejects; otherwise the new Card is mounted
    after the others with the state [JSON.parse] reads from that entry, or
    unliked when there is none. *)
Theorem submit_reads_entry_of_new_id (JSON_parse : string -> option json) (w : world)
  (now : N) (Ha : w.(gal).(isAddingCard) = true)
  (Ht : trim w.(gal).(newCardTitle) <> EmptyString) :
  (step JSON_parse w (OpSubmit now) = None <->
   exists s, w.(store) !! storage_key ("card-" ++ string_of_N now) = Some s /\
             JSON_parse s = None) /\
  (forall v, match w.(store) !! storage_key ("card-" ++ string_of_N now) with
             | Some s => JSON_parse s
             | None => Some (JBool false)
             end = Some v ->
   exists w', step JSON_parse w (OpSubmit now) = Some w' /\
   w'.(mounted) = (w.(mounted) ++ [(new_card now w.(gal), v)])%list).
Proof.
  pose proof (card_init_app_props JSON_parse w.(store) (new_card now w.(gal))
                (new_card_id_nonempty now w.(gal))) as Hci.
  pose proof (mount_card_none JSON_parse w.(store) (new_card now w.(gal))
                (new_card_id_nonempty now w.(gal))) as Hmn.
  cbn [new_card id initialLiked] in Hci, Hmn.
  split.
  - rewrite <- Hmn. unfold step. rewrite Ha.
    destruct (String.eqb_spec (trim w.(gal).(newCardTitle)) EmptyString) as [E|_];
      [contradiction|]. simpl.
    destruct (mount_card JSON_parse w.(store) (new_card now w.(gal))); split; congruence.
  - intros v Hv. rewrite <- Hci in Hv.
    assert (Hm : mount_card JSON_parse w.(store) (new_card now w.(gal)) =
                 Some (new_card now w.(gal), v)) by (unfold mount_card; now rewrite Hv).
    rewrite (step_submit_add JSON_parse w now _ Ha Ht Hm). eexists. split; reflexivity.
Qed.

Lemma submit_reads_entry_of_new_id_witness :
  (page_after store_leftover_bad [OpOpenForm; OpType "Algorithms"]).(gal).(isAddingCard) = true /\
  trim (page_after store_leftover_bad [OpOpenForm; OpType "Algorithms"]).(gal).(newCardTitle)
    <> EmptyString /\
  step json_parse_lit (page_after store_leftover_bad [OpOpenForm; OpType "Algorithms"])
    (OpSubmit 7) = None.
Proof.
  assert (Ha : (page_after store_leftover_bad [OpOpenForm; OpType "Algorithms"]).(gal).(isAddingCard)
               = true) by (vm_compute; reflexivity).
  assert (Ht : trim (page_after store_leftover_bad [OpOpenForm; OpType "Algorithms"]).(gal).(newCardTitle)
               <> EmptyString) by (vm_compute; discriminate).
  split; [exact Ha|]. split; [exact Ht|].
  apply (proj2 (proj1 (submit_reads_entry_of_new_id json_parse_lit _ 7 Ha Ht))).
  exists "oops". split; reflexivity.
Defined.

(** ** Deleting after toggling *)

Lemma filter_insert_same_id (ms : list (card * json)) (i : nat) (c : card) (v v' : json) :
  ms !! i = Some (c, v) ->
  List.filter (fun m => negb (String.eqb m.1.(id) c.(id))) (<[i := (c, v')]> ms) =
  List.filter (fun m => negb (String.eqb m.1.(id) c.(id))) ms.
Proof.
  revert i. induction ms as [|m ms IH]; intros [|i] H; simpl in H |- *; try discriminate.
  - injection H as ->. simpl. rewrite String.eqb_refl. reflexivity.
  - destruct (negb _); [f_equal|]; auto.
Qed.

Lemma step_toggle_gen (JSON_parse : string -> option json) (w : world) (i : nat)
  (c : card) (v : json) :
  w.(mounted) !! i = Some (c, v) ->
  step JSON_parse w (OpToggle i) =
  Some {| gal := handleLikeChange c.(id) (negb (truthy v)) w.(gal);
          mounted := <[i := (c, JBool (negb (truthy v)))]> w.(mounted);
          store := if truthy_id (Some c.(id))
                   then <[storage_key c.(id) := stringify_bool (negb (truthy v))]> w.(store)
                   else w.(store) |}.
Proof.
  intros Hi. unfold step. rewrite Hi.
  unfold toggleLike, app_card_props. cbn [p_cardId p_onLikeChange p_title].
  destruct (truthy_id (Some c.(id))); reflexivity.
Qed.

Lemma step_delete_gen (JSON_parse : string -> option json) (w : world) (i : nat)
  (c : card) (v : json) :
  w.(mounted) !! i = Some (c, v) ->
  step JSON_parse w (OpDelete i true) =
  Some {| gal := resync_liked (if truthy_id (Some c.(id))
                               then delete (storage_key c.(id)) w.(store) else w.(store))
                   (handleCardDelete c.(id) w.(gal));
          mounted := List.filter (fun m => negb (String.eqb m.1.(id) c.(id))) w.(mounted);
          store := if truthy_id (Some c.(id))
                   then delete (storage_key c.(id)) w.(store) else w.(store) |}.
Proof.
  intros Hi. unfold step. rewrite Hi.
  unfold handleDelete, app_card_props. cbn [p_cardId p_onDelete p_title].
  destruct (truthy_id (Some c.(id))); reflexivity.
Qed.

(** X11: on any page whose rendered Cards have distinct ids, a confirmed
    delete of a Card right after a click on its like button gives the same
    page as the delete alone: the toggle's store write and liked-set update
    leave no trace. *)
Theorem toggle_then_delete_leaves_no_trace (JSON_parse : string -> option json)
  (w : world) (Hkeys : NoDup (map (fun m : card * json => m.1.(id)) w.(mounted))) (i : nat) :
  run JSON_parse w [OpToggle i; OpDelete i true] = run JSON_parse w [OpDelete i true].
Proof.
  cbn [run]. destruct (w.(mounted) !! i) as [[c v]|] eqn:Hi.
  2: { unfold step. rewrite Hi. cbv beta iota. rewrite Hi. reflexivity. }
  assert (Hi2 : (<[i := (c, JBool (negb (truthy v)))]> w.(mounted)) !! i =
                Some (c, JBool (negb (truthy v))))
    by (apply list_lookup_insert_eq; exact (lookup_lt_Some _ _ _ Hi)).
  rewrite (step_toggle_gen JSON_parse w i c v Hi).
  rewrite (step_delete_gen JSON_parse _ i c (JBool (negb (truthy v)))); [|exact Hi2].
  rewrite (step_delete_gen JSON_parse w i c v Hi).
  cbn [gal mounted store]. rewrite (filter_insert_same_id _ i c v _ Hi).
  destruct (truthy_id (Some c.(id))); [rewrite delete_insert_eq|]; reflexivity.
Qed.

Lemma toggle_then_delete_leaves_no_trace_witness :
  NoDup (map (fun m : card * json => m.1.(id)) fresh_world.(mounted)) /\
  run json_parse_lit fresh_world [OpToggle 1; OpDelete 1 true] =
  run json_parse_lit fresh_world [OpDelete 1 true].
Proof.
  assert (H : NoDup (map (fun m : card * json => m.1.(id)) fresh_world.(mounted)))
    by (apply (proj1 (bool_decide_eq_true _)); vm_compute; reflexivity).
  split; [exact H|].
  exact (toggle_then_delete_leaves_no_trace json_parse_lit fresh_world H 1).
Defined.
